(** * Passcode reporter: the Bosch export parser, the report renderer and the
      row state machine of the rendered report

    Source: [userreporter.py].  Three parts of the program are embedded:

    - [parse_bosch_txt], the reader of the vendor export (module [Parser]),
      on top of the [str] and [re] operations it calls (modules [PyStr] and
      [Re]);
    - [generate_html], the renderer (module [Render]), with [html.escape] and
      [json.dumps] and the document template;
    - the script of the rendered document: [deleteRow], [markModified],
      [addRow] and the input listeners (module [DocModel]).

    A Python [str] is a [string] whose characters are the code points
    U+0000 to U+00FF; every character class below is Python's class
    restricted to that range. *)

From Stdlib Require Import String Ascii List Bool Arith Lia DecimalString.
Import ListNotations.
Local Open Scope list_scope.
Local Open Scope string_scope.

(* ================================================================== *)
(** ** Python [str] operations *)

Module PyStr.

Definition code (c : ascii) : nat := nat_of_ascii c.

Definition between (lo hi : nat) (c : ascii) : bool :=
  Nat.leb lo (code c) && Nat.leb (code c) hi.

(** [str.isspace] on one character, which is also the class [\s] of [re]:
    TAB to CR, FS to US, SPACE, NEL and NBSP. *)
Definition isspace (c : ascii) : bool :=
  between 9 13 c || between 28 32 c || Nat.eqb (code c) 133 || Nat.eqb (code c) 160.

(** The class [[a-z]]. *)
Definition is_az (c : ascii) : bool := between 97 122 c.

(** The class [[a-zA-Z]]. *)
Definition is_azAZ (c : ascii) : bool := between 97 122 c || between 65 90 c.

(** [str.isdigit] on one character: 0 to 9 and the superscripts 1, 2, 3. *)
Definition isdigit_char (c : ascii) : bool :=
  between 48 57 c || Nat.eqb (code c) 178 || Nat.eqb (code c) 179 || Nat.eqb (code c) 185.

(** [str.isalnum] on one character. *)
Definition isalnum_char (c : ascii) : bool :=
  between 48 57 c || between 65 90 c || between 97 122 c
  || Nat.eqb (code c) 170 || Nat.eqb (code c) 178 || Nat.eqb (code c) 179 || Nat.eqb (code c) 181
  || Nat.eqb (code c) 185 || Nat.eqb (code c) 186 || between 188 190 c
  || between 192 214 c || between 216 246 c || between 248 255 c.

(** The class [\w] of [re]: alphanumeric or underscore. *)
Definition is_word (c : ascii) : bool := isalnum_char c || Nat.eqb (code c) 95.

(** [str.lower] on one character. *)
Definition lower_char (c : ascii) : ascii :=
  if between 65 90 c || between 192 214 c || between 216 222 c
  then ascii_of_nat (code c + 32) else c.

Fixpoint lower (s : string) : string :=
  match s with
  | EmptyString => EmptyString
  | String c r => String (lower_char c) (lower r)
  end.

Fixpoint forall_chars (p : ascii -> bool) (s : string) : bool :=
  match s with
  | EmptyString => true
  | String c r => p c && forall_chars p r
  end.

(** Truth value of a [str]: non-empty. *)
Definition truthy (s : string) : bool :=
  match s with EmptyString => false | String _ _ => true end.

(** [str.isdigit]: at least one character and all of them digits. *)
Definition isdigit (s : string) : bool := truthy s && forall_chars isdigit_char s.

(** [s.startswith(p)]. *)
Definition startswith (p s : string) : bool := prefix p s.

Fixpoint lstrip (s : string) : string :=
  match s with
  | EmptyString => EmptyString
  | String c r => if isspace c then lstrip r else s
  end.

Fixpoint rstrip (s : string) : string :=
  match s with
  | EmptyString => EmptyString
  | String c r =>
      match rstrip r with
      | EmptyString => if isspace c then EmptyString else String c EmptyString
      | r' => String c r'
      end
  end.

(** [s.strip()]. *)
Definition strip (s : string) : string := rstrip (lstrip s).

(** [s[n:]]. *)
Fixpoint slice_from (n : nat) (s : string) : string :=
  match n, s with
  | O, _ => s
  | S k, String _ r => slice_from k r
  | S _, EmptyString => EmptyString
  end.

(** [s[:n]]. *)
Fixpoint slice_to (n : nat) (s : string) : string :=
  match n, s with
  | S k, String c r => String c (slice_to k r)
  | _, _ => EmptyString
  end.

(** [s.replace(old, new)] for a non-empty [old]: occurrences are found from
    the left and do not overlap.  [skip] counts the characters of the
    occurrence just replaced that are still to be passed over. *)
Fixpoint replace_from (old new : string) (skip : nat) (s : string) : string :=
  match s with
  | EmptyString => EmptyString
  | String c r =>
      match skip with
      | S k => replace_from old new k r
      | O =>
          if prefix old s
          then new ++ replace_from old new (String.length old - 1) r
          else String c (replace_from old new 0 r)
      end
  end.

(** With an empty [old] Python puts [new] before every character and after
    the last one. *)
Fixpoint intersperse (new s : string) : string :=
  match s with
  | EmptyString => new
  | String c r => new ++ String c (intersperse new r)
  end.

Definition replace (old new s : string) : string :=
  match old with
  | EmptyString => intersperse new s
  | _ => replace_from old new 0 s
  end.

(** [s.split(sep)] for a non-empty [sep] (the source splits on a comma):
    always at least one piece, empty pieces kept. *)
Fixpoint split_from (sep : string) (skip : nat) (s : string) : list string :=
  match s with
  | EmptyString => [EmptyString]
  | String c r =>
      match skip with
      | S k => split_from sep k r
      | O =>
          if prefix sep s
          then EmptyString :: split_from sep (String.length sep - 1) r
          else match split_from sep 0 r with
               | p :: ps => String c p :: ps
               | [] => [String c EmptyString]
               end
      end
  end.

Definition split (sep s : string) : list string := split_from sep 0 s.

(** [s.split()]: pieces between runs of whitespace, none of them empty.
    [cur] is the piece being read. *)
Fixpoint split_ws_from (cur s : string) : list string :=
  match s with
  | EmptyString => if truthy cur then [cur] else []
  | String c r =>
      if isspace c
      then (if truthy cur then cur :: split_ws_from EmptyString r
            else split_ws_from EmptyString r)
      else split_ws_from (cur ++ String c EmptyString) r
  end.

Definition split_ws (s : string) : list string := split_ws_from EmptyString s.

(** [sep.join(pieces)]. *)
Definition join (sep : string) (pieces : list string) : string :=
  String.concat sep pieces.

(** [str(n)] for a non-negative integer. *)
Definition str_of_nat (n : nat) : string :=
  NilEmpty.string_of_uint (Nat.to_uint n).

(** Every character [c] of [s] replaced by the text [f c]. *)
Fixpoint expand_chars (f : ascii -> string) (s : string) : string :=
  match s with
  | EmptyString => EmptyString
  | String c r => f c ++ expand_chars f r
  end.

(** [needle in hay]. *)
Definition contains (needle hay : string) : Prop :=
  exists a b, hay = a ++ needle ++ b.

(** The character [c] occurs in [s]. *)
Fixpoint occurs (c : ascii) (s : string) : Prop :=
  match s with
  | EmptyString => False
  | String d r => c = d \/ occurs c r
  end.

End PyStr.

(* ================================================================== *)
(** ** The fragment of [re] used by the name repair *)

Module Re.
Import PyStr.

(** A pattern is a sequence of atoms; the two patterns of the source are
    built from single classes, [class+], [class{lo,hi}], [\b] and the
    parentheses of capturing groups. *)
Inductive atom : Type :=
| Cls (p : ascii -> bool)
| Plus (p : ascii -> bool)
| Upto (p : ascii -> bool) (lo hi : nat)
| WordB
| GOpen
| GClose.

Definition regex := list atom.

(** State of one match attempt: characters consumed so far, the character
    before the current position, the groups already closed (in order) and
    the text of the group that is open. *)
Record mstate : Type := mkM {
  consumed : nat;
  prev : option ascii;
  groups : list string;
  opened : option string
}.

Definition start (before : option ascii) : mstate := mkM 0 before [] None.

Fixpoint last_char (d : option ascii) (s : string) : option ascii :=
  match s with
  | EmptyString => d
  | String c r => last_char (Some c) r
  end.

Definition eat (t : string) (st : mstate) : mstate :=
  mkM (consumed st + String.length t) (last_char (prev st) t) (groups st)
      (option_map (fun g => g ++ t) (opened st)).

Definition open_group (st : mstate) : mstate :=
  mkM (consumed st) (prev st) (groups st) (Some EmptyString).

Definition close_group (st : mstate) : mstate :=
  match opened st with
  | Some g => mkM (consumed st) (prev st) ((groups st ++ [g])%list) None
  | None => st
  end.

(** Length of the longest prefix of [s] made of characters of class [p]. *)
Fixpoint run_length (p : ascii -> bool) (s : string) : nat :=
  match s with
  | String c r => if p c then S (run_length p r) else 0
  | EmptyString => 0
  end.

Definition word_before (st : mstate) : bool :=
  match prev st with Some c => is_word c | None => false end.

Definition word_after (s : string) : bool :=
  match s with String c _ => is_word c | EmptyString => false end.

(** [\b]: exactly one side of the position is a word character. *)
Definition at_boundary (st : mstate) (s : string) : bool :=
  xorb (word_before st) (word_after s).

(** Greedy repetition with backtracking: try [n] repetitions, then [n-1],
    down to [lo]. *)
Fixpoint backtrack {A : Type} (lo : nat) (f : nat -> option A) (n : nat) : option A :=
  if Nat.ltb n lo then None
  else match f n with
       | Some r => Some r
       | None => match n with
                 | O => None
                 | S m => backtrack lo f m
                 end
       end.

(** Match [re] at the start of [s]. *)
Fixpoint match_here (re : regex) (st : mstate) (s : string) : option mstate :=
  match re with
  | [] => Some st
  | Cls p :: re' =>
      match s with
      | String c r =>
          if p c then match_here re' (eat (String c EmptyString) st) r else None
      | EmptyString => None
      end
  | Plus p :: re' =>
      backtrack 1
        (fun k => match_here re' (eat (slice_to k s) st) (slice_from k s))
        (run_length p s)
  | Upto p lo hi :: re' =>
      backtrack lo
        (fun k => match_here re' (eat (slice_to k s) st) (slice_from k s))
        (Nat.min hi (run_length p s))
  | WordB :: re' => if at_boundary st s then match_here re' st s else None
  | GOpen :: re' => match_here re' (open_group st) s
  | GClose :: re' => match_here re' (close_group st) s
  end.

(** A replacement template: literal text and group references [\n]. *)
Inductive piece : Type :=
| Lit (t : string)
| Ref (n : nat).

Fixpoint expand (repl : list piece) (st : mstate) : string :=
  match repl with
  | [] => EmptyString
  | Lit t :: more => t ++ expand more st
  | Ref n :: more => nth (n - 1) (groups st) EmptyString ++ expand more st
  end.

(** [re.sub(re, repl, s)]: matches are looked for from the left, the scan
    resumes after each match.  [skip] counts the characters of the last
    match still to be passed over; [before] is the character before the
    current position.  (Both patterns of the source consume at least two
    characters, so a match is never empty.) *)
Fixpoint sub_from (re : regex) (repl : list piece)
    (before : option ascii) (skip : nat) (s : string) : string :=
  match s with
  | EmptyString => EmptyString
  | String c r =>
      match skip with
      | S k => sub_from re repl (Some c) k r
      | O =>
          match match_here re (start before) s with
          | Some st =>
              match consumed st with
              | O => String c (sub_from re repl (Some c) 0 r)
              | S k => expand repl st ++ sub_from re repl (Some c) k r
              end
          | None => String c (sub_from re repl (Some c) 0 r)
          end
      end
  end.

Definition sub (re : regex) (repl : list piece) (s : string) : string :=
  sub_from re repl None 0 s.

End Re.

(* ================================================================== *)
(** ** [parse_bosch_txt] *)

Module Parser.
Import PyStr Re.

(** One element of the returned list, the Python list
    [[user_name, passcode, auth_val]]: [row[0]], [row[1]], [row[2]]. *)
Record user_row : Type := mkRow {
  name : string;
  passcode : string;
  auth : string
}.

(** [seen_users]: a [dict] keeps its keys in insertion order, so it is an
    association list with distinct keys, new keys added at the end. *)
Definition seen_users : Type := list (string * user_row).

Fixpoint has_key (k : string) (d : seen_users) : bool :=
  match d with
  | [] => false
  | (k', _) :: more => (k' =? k) || has_key k more
  end.

(** [seen_users[k] = v] for a key that is not in the dict. *)
Definition add_key (k : string) (v : user_row) (d : seen_users) : seen_users :=
  (d ++ [(k, v)])%list.

(** [list(seen_users.values())]. *)
Definition values (d : seen_users) : list user_row := map snd d.

(** [r'([a-z])\s+([a-z])'] *)
Definition MID_WORD : regex :=
  [GOpen; Cls is_az; GClose; Plus isspace; GOpen; Cls is_az; GClose].

(** [r'([a-zA-Z])\s+([a-z]{1,2}\b)'] *)
Definition SHORT_ENDING : regex :=
  [GOpen; Cls is_azAZ; GClose; Plus isspace; GOpen; Upto is_az 1 2; WordB; GClose].

(** [r'\1\2'] *)
Definition BOTH_GROUPS : list piece := [Ref 1; Ref 2].

(** The repair of [raw_name] into [user_name]. *)
Definition repair_name (raw_name : string) : string :=
  let user_name := sub MID_WORD BOTH_GROUPS raw_name in
  let user_name := sub SHORT_ENDING BOTH_GROUPS user_name in
  join " " (split_ws user_name).

(** [val != "0" and val.lower() != "no"] *)
Definition flag_set (val : string) : bool :=
  negb (val =? "0") && negb (lower val =? "no").

(** The loop over [enumerate(auth_levels, start=idx)], stopped by [break]. *)
Fixpoint first_flag (idx : nat) (auth_levels : list string) : option string :=
  match auth_levels with
  | [] => None
  | val :: more =>
      if flag_set val then Some ("A" ++ str_of_nat idx)
      else first_flag (S idx) more
  end.

(** [parts[5:13]] *)
Definition auth_columns (parts : list string) : list string :=
  firstn 8 (skipn 5 parts).

Definition auth_level (parts : list string) : string :=
  match first_flag 1 (auth_columns parts) with
  | Some auth_val => auth_val
  | None => "None"
  end.

(** Field extraction from the parts of a line with more than 6 of them:
    the id and the row. *)
Definition fields_of (parts : list string) : string * user_row :=
  let user_id_part := nth 0 parts EmptyString in
  let user_id := replace "User " EmptyString user_id_part in
  let raw_name := nth 1 parts EmptyString in
  let user_name := repair_name raw_name in
  let passcode := replace " " EmptyString (nth 2 parts EmptyString) in
  (user_id, mkRow user_name passcode (auth_level parts)).

Definition is_user_star (user_name : string) : bool :=
  startswith "User " user_name
  && isdigit (replace " " EmptyString (slice_from 5 user_name)).

Definition has_passcode (passcode : string) : bool :=
  truthy passcode && negb (passcode =? "0").

(** [not is_user_star or has_passcode] *)
Definition keeps (row : user_row) : bool :=
  negb (is_user_star (name row)) || has_passcode (passcode row).

(** [line.strip().replace(" ,", ",").replace(", ", ",")] *)
Definition clean_line (line : string) : string :=
  replace ", " "," (replace " ," "," (strip line)).

(** The body of the loop over the lines of the file. *)
Definition process_line (seen : seen_users) (line : string) : seen_users :=
  let line := clean_line line in
  if startswith "User " line then
    let parts := map strip (split "," line) in
    if Nat.ltb 6 (List.length parts) then
      let '(user_id, row) := fields_of parts in
      if keeps row then
        if has_key user_id seen then seen else add_key user_id row seen
      else seen
    else seen
  else seen.

(** The dict after the loop over [lines]. *)
Definition scan (lines : list string) : seen_users :=
  fold_left process_line lines [].

Definition CR : ascii := "013"%char.
Definition LF : ascii := "010"%char.

(** Text mode with universal newlines: CR LF and a lone CR are read as LF. *)
Fixpoint universal_newlines (s : string) : string :=
  match s with
  | EmptyString => EmptyString
  | String c r =>
      if Ascii.eqb c CR then
        match r with
        | String d r' =>
            if Ascii.eqb d LF then String LF (universal_newlines r')
            else String LF (universal_newlines r)
        | EmptyString => String LF EmptyString
        end
      else String c (universal_newlines r)
  end.

(** Iterating over the file: every line ends with its LF, except possibly
    the last one.  [cur] is the line being read. *)
Fixpoint lines_from (cur s : string) : list string :=
  match s with
  | EmptyString => if truthy cur then [cur] else []
  | String c r =>
      if Ascii.eqb c LF
      then (cur ++ String LF EmptyString) :: lines_from EmptyString r
      else lines_from (cur ++ String c EmptyString) r
  end.

Definition readlines (text : string) : list string :=
  lines_from EmptyString (universal_newlines text).

(** What a path refers to.  The text of a regular file is its content
    decoded as UTF-8 with [errors="ignore"], which never fails. *)
Inductive node : Type :=
| Absent
| NotAFile
| Regular (readable : bool) (text : string).

Definition filesystem : Type := string -> node.

Inductive error : Type :=
| ValueError (msg : string)
| OSError.

Inductive outcome (A : Type) : Type :=
| Returns (a : A)
| Raises (e : error).
Arguments Returns {A} a.
Arguments Raises {A} e.

(** [os.path.isfile] *)
Definition isfile (fs : filesystem) (filepath : string) : bool :=
  match fs filepath with
  | Regular _ _ => true
  | _ => false
  end.

(** [open(filepath, "r", ...)]: the text, or the error of the system. *)
Definition open_read (fs : filesystem) (filepath : string) : outcome string :=
  match fs filepath with
  | Regular true text => Returns text
  | _ => Raises OSError
  end.

Definition parse_text (text : string) : list user_row :=
  values (scan (readlines text)).

Definition parse_bosch_txt (fs : filesystem) (filepath : string)
  : outcome (list user_row) :=
  if negb (isfile fs filepath) then Raises (ValueError "Invalid file path")
  else match open_read fs filepath with
       | Returns text => Returns (parse_text text)
       | Raises e => Raises e
       end.

(** *** Views of the loop, for the statements below *)

(** The candidate record of a line: the id and the row read from a line
    that starts with [User ] and has more than 6 fields. *)
Definition candidate (line : string) : option (string * user_row) :=
  let line := clean_line line in
  if startswith "User " line then
    let parts := map strip (split "," line) in
    if Nat.ltb 6 (List.length parts) then Some (fields_of parts) else None
  else None.

(** The candidate record of a line if the placeholder filter keeps it. *)
Definition kept_record (line : string) : option (string * user_row) :=
  match candidate line with
  | Some (user_id, row) => if keeps row then Some (user_id, row) else None
  | None => None
  end.

Fixpoint kept_records (lines : list string) : list (string * user_row) :=
  match lines with
  | [] => []
  | line :: more =>
      match kept_record line with
      | Some rec => rec :: kept_records more
      | None => kept_records more
      end
  end.

(** [seen_users.get(k)] *)
Fixpoint get (k : string) (d : seen_users) : option user_row :=
  match d with
  | [] => None
  | (k', v) :: more => if k' =? k then Some v else get k more
  end.

(** First-seen-wins deduplication as the specification words it: of the
    records that share an id only the first stays, in its place. *)
Fixpoint first_seen_wins (records : list (string * user_row)) : seen_users :=
  match records with
  | [] => []
  | (k, v) :: more =>
      (k, v) :: filter (fun kv => negb (fst kv =? k)) (first_seen_wins more)
  end.

(** The parser on the lines of a file. *)
Definition parse_lines (lines : list string) : list user_row :=
  values (scan lines).

(** The fields of a candidate line, as the loop splits them. *)
Definition parts_of (line : string) : list string :=
  map strip (split "," (clean_line line)).

(** Field [4 + i] of the line exists and is neither 0 nor, whatever its
    case, the word no: column [i] of A1 to A8 is set. *)
Definition flag_at (parts : list string) (i : nat) : Prop :=
  exists val, nth_error parts (4 + i) = Some val
              /\ val <> "0" /\ lower val <> "no".

(** The levels of the specification. *)
Definition AUTH_LEVELS : list string :=
  ["None"; "A1"; "A2"; "A3"; "A4"; "A5"; "A6"; "A7"; "A8"].

(** The path refers to a regular file that can be read. *)
Definition readable_file (fs : filesystem) (filepath : string) : Prop :=
  exists text, fs filepath = Regular true text.

End Parser.

(* ================================================================== *)
(** ** [generate_html] *)

Module Render.
Import PyStr Parser.

(** The double quote. *)
Definition dq : string := String "034"%char EmptyString.

(** *** The text of the templates

    The static text of the three f-strings of [generate_html], cut at their
    interpolations, with the doubled braces of the f-string written as the
    single braces they stand for. *)

(** The row template up to the name cell. *)
Definition ROW_OPEN : string :=
  "
        <tr>
            <td class=" ++ dq ++ "editable-cell" ++ dq ++ " contenteditable='true'>".

(** From the name to the passcode. *)
Definition ROW_AFTER_NAME : string :=
  "</td>
            <td class=" ++ dq ++ "editable-cell passcode-cell" ++ dq ++ " contenteditable='true'>".

(** From the passcode to the options of the select. *)
Definition ROW_AFTER_PASSCODE : string :=
  "</td>
            <td class=" ++ dq ++ "auth-cell" ++ dq ++ ">
                <select class=" ++ dq ++ "auth-select" ++ dq ++ " onchange=" ++ dq ++ "markModified(this)" ++ dq ++ ">
                    ".

(** The rest of the row. *)
Definition ROW_CLOSE : string :=
  "
                </select>
            </td>
            <td class=" ++ dq ++ "action-cell" ++ dq ++ ">
                <button class=" ++ dq ++ "delete-btn" ++ dq ++ " onclick='deleteRow(this)'>Remove</button>
            </td>
        </tr>".

(** The logo block up to the image kind. *)
Definition LOGO_OPEN : string :=
  "
    <div class=" ++ dq ++ "header-logo" ++ dq ++ ">
        <img src='data:image/".

(** From the image kind to the image data. *)
Definition LOGO_AFTER_MIME : string :=
  ";base64,".

(** The rest of the logo block. *)
Definition LOGO_CLOSE : string :=
  "' alt=" ++ dq ++ "Company Logo" ++ dq ++ ">
    </div>".

(** The page up to the style sheet. *)
Definition PAGE_OPEN : string :=
  "<!DOCTYPE html>
<html>
<head>
<meta charset=" ++ dq ++ "UTF-8" ++ dq ++ ">
<meta name=" ++ dq ++ "viewport" ++ dq ++ " content=" ++ dq ++ "width=device-width, initial-scale=1.0" ++ dq ++ ">
<meta http-equiv=" ++ dq ++ "Content-Security-Policy" ++ dq ++ " content=" ++ dq ++ "default-src 'self' data:; script-src 'unsafe-inline'; style-src 'unsafe-inline';" ++ dq ++ ">
<title>Security System Passcode Manager</title>
<style>
".

(** The style sheet (its one character above U+00FF, the bullet U+2022, in UTF-8). *)
Definition STYLE_SHEET : string :=
  "* {
    margin: 0;
    padding: 0;
    box-sizing: border-box;
}

body {
    font-family: 'Inter', -apple-system, BlinkMacSystemFont, 'Segoe UI', Roboto, sans-serif;
    background: #0a0e27;
    min-height: 100vh;
    color: #64748b;
}

/* Login Screen */
#loginDiv {
    background: #ffffff;
    border-radius: 8px;
    box-shadow: 0 4px 6px rgba(0, 0, 0, 0.07);
    padding: 48px;
    max-width: 420px;
    margin: 120px auto;
    border: 1px solid #e2e8f0;
}

.login-header {
    text-align: center;
    margin-bottom: 32px;
}

.security-badge {
    width: 48px;
    height: 48px;
    background: #0f172a;
    border-radius: 12px;
    display: flex;
    align-items: center;
    justify-content: center;
    margin: 0 auto 16px;
}

.security-badge::before {
    content: " ++ dq ++ dq ++ ";
    width: 24px;
    height: 24px;
    border: 3px solid #3b82f6;
    border-radius: 50%;
    border-top-color: transparent;
}

#loginDiv h2 {
    color: #0f172a;
    font-size: 24px;
    font-weight: 600;
    letter-spacing: -0.025em;
}

.login-subtitle {
    color: #64748b;
    font-size: 14px;
    margin-top: 8px;
}

#pwdInput {
    width: 100%;
    padding: 12px 16px;
    border: 1px solid #e2e8f0;
    border-radius: 6px;
    font-size: 15px;
    margin-bottom: 24px;
    transition: all 0.2s;
    background: #f8fafc;
}

#pwdInput:focus {
    outline: none;
    border-color: #3b82f6;
    background: #ffffff;
    box-shadow: 0 0 0 3px rgba(59, 130, 246, 0.1);
}

.submit-btn {
    background: #0f172a;
    color: white;
    border: none;
    padding: 12px 24px;
    border-radius: 6px;
    font-size: 15px;
    font-weight: 500;
    cursor: pointer;
    transition: all 0.2s;
    width: 100%;
}

.submit-btn:hover {
    background: #1e293b;
    transform: translateY(-1px);
    box-shadow: 0 4px 12px rgba(0, 0, 0, 0.15);
}

/* Main Content */
#mainContent {
    background: #ffffff;
    min-height: 100vh;
    padding: 0;
}

.app-header {
    background: #0f172a;
    padding: 24px 32px;
    border-bottom: 1px solid #1e293b;
}

.header-content {
    max-width: 1400px;
    margin: 0 auto;
    display: flex;
    justify-content: space-between;
    align-items: center;
}

.header-left {
    display: flex;
    align-items: center;
    gap: 24px;
}

.header-logo img {
    max-height: 40px;
    height: auto;
}

.app-title {
    color: #ffffff;
    font-size: 20px;
    font-weight: 600;
    letter-spacing: -0.025em;
}

.header-stats {
    display: flex;
    gap: 32px;
}

.stat-item {
    color: #94a3b8;
    font-size: 14px;
}

.stat-value {
    color: #ffffff;
    font-weight: 600;
    margin-left: 8px;
}

.main-container {
    max-width: 1400px;
    margin: 0 auto;
    padding: 32px;
}

/* Action Bar */
.action-bar {
    background: #f8fafc;
    border: 1px solid #e2e8f0;
    border-radius: 8px;
    padding: 20px 24px;
    margin-bottom: 24px;
    display: flex;
    justify-content: space-between;
    align-items: center;
}

.action-buttons {
    display: flex;
    gap: 12px;
}

.action-btn {
    background: #ffffff;
    color: #475569;
    border: 1px solid #e2e8f0;
    padding: 8px 16px;
    border-radius: 6px;
    font-size: 14px;
    font-weight: 500;
    cursor: pointer;
    transition: all 0.2s;
    display: flex;
    align-items: center;
    gap: 8px;
}

.action-btn:hover {
    background: #f1f5f9;
    border-color: #cbd5e1;
}

.action-btn.primary {
    background: #3b82f6;
    color: white;
    border-color: #3b82f6;
}

.action-btn.primary:hover {
    background: #2563eb;
    border-color: #2563eb;
}

/* Instructions Indicator */
.instructions-indicator {
    position: relative;
    display: inline-flex;
    align-items: center;
    gap: 8px;
    margin-left: auto;
    margin-right: 16px;
}

.help-icon {
    width: 20px;
    height: 20px;
    background: #3b82f6;
    color: white;
    border-radius: 50%;
    display: flex;
    align-items: center;
    justify-content: center;
    font-size: 14px;
    font-weight: bold;
    cursor: help;
}

.help-text {
    color: #64748b;
    font-size: 14px;
    font-weight: 500;
}

.instructions-tooltip {
    position: absolute;
    top: 100%;
    right: 0;
    margin-top: 8px;
    background: #0f172a;
    color: white;
    padding: 16px;
    border-radius: 8px;
    box-shadow: 0 10px 25px rgba(0, 0, 0, 0.2);
    width: 320px;
    z-index: 1000;
    opacity: 0;
    visibility: hidden;
    transition: opacity 0.3s, visibility 0.3s;
    font-size: 13px;
    line-height: 1.6;
}

.instructions-indicator:hover .instructions-tooltip {
    opacity: 1;
    visibility: visible;
}

.instructions-tooltip::before {
    content: " ++ dq ++ dq ++ ";
    position: absolute;
    bottom: 100%;
    right: 20px;
    border-width: 8px;
    border-style: solid;
    border-color: transparent transparent #0f172a transparent;
}

.instructions-tooltip h4 {
    margin: 0 0 12px 0;
    font-size: 14px;
    font-weight: 600;
    color: #f1f5f9;
}

.instructions-tooltip ul {
    margin: 0;
    padding-left: 20px;
    list-style: none;
}

.instructions-tooltip li {
    margin-bottom: 8px;
    position: relative;
    padding-left: 16px;
}

.instructions-tooltip li::before {
    content: " ++ dq ++ "•" ++ dq ++ ";
    position: absolute;
    left: 0;
    color: #3b82f6;
}

/* Table Styles */
.table-container {
    background: #ffffff;
    border: 1px solid #e2e8f0;
    border-radius: 8px;
    overflow: hidden;
}

table {
    width: 100%;
    border-collapse: collapse;
}

thead {
    background: #f8fafc;
    border-bottom: 1px solid #e2e8f0;
}

th {
    padding: 12px 24px;
    text-align: left;
    font-weight: 500;
    font-size: 12px;
    text-transform: uppercase;
    letter-spacing: 0.05em;
    color: #64748b;
}

td {
    padding: 16px 24px;
    border-bottom: 1px solid #f1f5f9;
    font-size: 14px;
    color: #0f172a;
}

tr:last-child td {
    border-bottom: none;
}

tr:hover {
    background-color: #f8fafc;
}

.editable-cell {
    position: relative;
    cursor: text;
    transition: all 0.2s;
}

.editable-cell:focus {
    outline: none;
    background: #f0f9ff;
    box-shadow: inset 0 0 0 2px #3b82f6;
}

.passcode-cell {
    font-family: 'Monaco', 'Courier New', monospace;
    letter-spacing: 0.05em;
}

.auth-cell {
    font-weight: 500;
    color: #3b82f6;
}

.auth-select {
    width: 100%;
    padding: 4px 8px;
    border: 1px solid #e2e8f0;
    border-radius: 4px;
    background: white;
    color: #3b82f6;
    font-size: 14px;
    font-weight: 500;
    cursor: pointer;
    transition: all 0.2s;
}

.auth-select:focus {
    outline: none;
    border-color: #3b82f6;
    box-shadow: 0 0 0 3px rgba(59, 130, 246, 0.1);
}

.auth-select:hover {
    border-color: #cbd5e1;
}

.deleted .auth-select {
    pointer-events: none;
    opacity: 0.5;
    background: #f8f8f8;
}

.action-cell {
    text-align: right;
}

/* Status Classes */
.modified {
    background-color: #fef3c7;
}

.deleted {
    background-color: #fef2f2;
    position: relative;
}

.deleted::after {
    content: " ++ dq ++ "DELETED" ++ dq ++ ";
    position: absolute;
    top: 50%;
    right: 150px;
    transform: translateY(-50%);
    background: #dc2626;
    color: white;
    font-size: 10px;
    padding: 2px 8px;
    border-radius: 3px;
    font-weight: 600;
    letter-spacing: 0.05em;
}

.deleted td {
    position: relative;
    color: #991b1b;
    opacity: 0.85;
}

.deleted td::after {
    content: " ++ dq ++ dq ++ ";
    position: absolute;
    left: 0;
    top: 50%;
    width: 100%;
    height: 1px;
    background: #dc2626;
    opacity: 0.3;
}

.deleted .editable-cell {
    pointer-events: none;
    cursor: not-allowed;
}

.deleted .delete-btn {
    background: #059669;
    color: white;
    border-color: #059669;
}

.deleted .delete-btn:hover {
    background: #047857;
    border-color: #047857;
}

.restore-btn {
    background: #059669 !important;
    color: white !important;
    border-color: #059669 !important;
}

.restore-btn:hover {
    background: #047857 !important;
    border-color: #047857 !important;
}

.added {
    background-color: #d1fae5;
    animation: fadeIn 0.3s ease;
}

@keyframes fadeIn {
    from { opacity: 0; transform: translateY(-10px); }
    to { opacity: 1; transform: translateY(0); }
}

/* Delete Button */
.delete-btn {
    background: transparent;
    color: #ef4444;
    border: 1px solid #fecaca;
    padding: 6px 12px;
    border-radius: 4px;
    font-size: 13px;
    cursor: pointer;
    transition: all 0.2s;
    font-weight: 500;
}

.delete-btn:hover {
    background: #fef2f2;
    border-color: #ef4444;
}

/* Pagination */
.pagination {
    margin-top: 24px;
    display: flex;
    justify-content: center;
    gap: 8px;
    padding-top: 24px;
    border-top: 1px solid #e2e8f0;
}

.pagination button {
    min-width: 40px;
    height: 40px;
    padding: 0 12px;
    border: 1px solid #e2e8f0;
    background: white;
    color: #475569;
    border-radius: 6px;
    cursor: pointer;
    font-size: 14px;
    font-weight: 500;
    transition: all 0.2s;
}

.pagination button:hover {
    background: #f8fafc;
    border-color: #cbd5e1;
}

.pagination button.active {
    background: #0f172a;
    color: white;
    border-color: #0f172a;
}

/* Responsive Design */
@media (max-width: 768px) {
    .main-container {
        padding: 16px;
    }
    
    .action-bar {
        flex-direction: column;
        gap: 16px;
    }
    
    .action-buttons {
        width: 100%;
        flex-direction: column;
    }
    
    .action-btn {
        width: 100%;
        justify-content: center;
    }
    
    th, td {
        padding: 12px;
        font-size: 13px;
    }
    
    .header-content {
        flex-direction: column;
        gap: 16px;
        text-align: center;
    }
}
".

(** From the end of the style sheet to the logo. *)
Definition PAGE_BEFORE_LOGO : string :=
  "</style>
</head>
<body>
<div id=" ++ dq ++ "loginDiv" ++ dq ++ ">
  <div class=" ++ dq ++ "login-header" ++ dq ++ ">
    <div class=" ++ dq ++ "security-badge" ++ dq ++ "></div>
    <h2>Authentication Required</h2>
    <div class=" ++ dq ++ "login-subtitle" ++ dq ++ ">Enter your credentials to access the system</div>
  </div>
  <input type=" ++ dq ++ "password" ++ dq ++ " id=" ++ dq ++ "pwdInput" ++ dq ++ " placeholder=" ++ dq ++ "Enter password" ++ dq ++ ">
  <button class=" ++ dq ++ "submit-btn" ++ dq ++ " onclick=" ++ dq ++ "checkPassword()" ++ dq ++ ">Authenticate</button>
</div>
<div id=" ++ dq ++ "mainContent" ++ dq ++ " style=" ++ dq ++ "display:none;" ++ dq ++ ">
  <div class=" ++ dq ++ "app-header" ++ dq ++ ">
    <div class=" ++ dq ++ "header-content" ++ dq ++ ">
      <div class=" ++ dq ++ "header-left" ++ dq ++ ">
        ".

(** From the logo to the date of the report. *)
Definition PAGE_BEFORE_DATE : string :=
  "
        <div class=" ++ dq ++ "app-title" ++ dq ++ ">Security System Passcode Manager</div>
      </div>
      <div class=" ++ dq ++ "header-stats" ++ dq ++ ">
        <div class=" ++ dq ++ "stat-item" ++ dq ++ ">
          Report Generated<span class=" ++ dq ++ "stat-value" ++ dq ++ ">".

(** From the date to the number of users. *)
Definition PAGE_BEFORE_COUNT : string :=
  "</span>
        </div>
        <div class=" ++ dq ++ "stat-item" ++ dq ++ ">
          Total Users<span class=" ++ dq ++ "stat-value" ++ dq ++ " id=" ++ dq ++ "userCount" ++ dq ++ ">".

(** From the number of users to the rows of the table. *)
Definition PAGE_BEFORE_ROWS : string :=
  "</span>
        </div>
      </div>
    </div>
  </div>
  <div class=" ++ dq ++ "main-container" ++ dq ++ ">
    <div class=" ++ dq ++ "action-bar" ++ dq ++ ">
      <div class=" ++ dq ++ "action-buttons" ++ dq ++ ">
        <button class=" ++ dq ++ "action-btn primary" ++ dq ++ " onclick=" ++ dq ++ "addRow()" ++ dq ++ ">Add User</button>
        <button class=" ++ dq ++ "action-btn" ++ dq ++ " onclick=" ++ dq ++ "exportHTML()" ++ dq ++ ">Export Report</button>
      </div>
      <div class=" ++ dq ++ "instructions-indicator" ++ dq ++ ">
        <span class=" ++ dq ++ "help-text" ++ dq ++ ">Instructions</span>
        <div class=" ++ dq ++ "help-icon" ++ dq ++ ">?</div>
        <div class=" ++ dq ++ "instructions-tooltip" ++ dq ++ ">
          <h4>How to Use This Report</h4>
          <ul>
            <li><strong>Edit Users:</strong> Click any cell to edit directly</li>
            <li><strong>Add Users:</strong> Click " ++ dq ++ "Add User" ++ dq ++ " to create a new entry</li>
            <li><strong>Remove Users:</strong> Click " ++ dq ++ "Remove" ++ dq ++ " to mark for deletion</li>
            <li><strong>Restore Users:</strong> Click " ++ dq ++ "Restore" ++ dq ++ " on deleted entries</li>
            <li><strong>Save Changes:</strong> Click " ++ dq ++ "Export Report" ++ dq ++ " to download with all modifications</li>
          </ul>
          <div style=" ++ dq ++ "margin-top: 12px; padding-top: 12px; border-top: 1px solid #334155; color: #94a3b8; font-size: 12px;" ++ dq ++ ">
            <strong>Note:</strong> Changes are only saved when you export the report.
          </div>
        </div>
      </div>
    </div>
    <div class=" ++ dq ++ "table-container" ++ dq ++ ">
      <table id=" ++ dq ++ "dataTable" ++ dq ++ ">
        <thead>
          <tr>
            <th>User Name</th>
            <th>Passcode</th>
            <th>Authority Level</th>
            <th>Actions</th>
          </tr>
        </thead>
        <tbody>
          ".

(** From the rows to the value of PASSWORD in the script. *)
Definition PAGE_BEFORE_PASSWORD : string :=
  "
        </tbody>
      </table>
    </div>
    <div class=" ++ dq ++ "pagination" ++ dq ++ " id=" ++ dq ++ "pagination" ++ dq ++ "></div>
  </div>
</div>
<script>
let PASSWORD = ".

(** The rest of the script and of the page. *)
Definition PAGE_SCRIPT : string :=
  ";
let currentPage = 1;
const rowsPerPage = 50;
const table = document.getElementById(" ++ dq ++ "dataTable" ++ dq ++ ").getElementsByTagName(" ++ dq ++ "tbody" ++ dq ++ ")[0];

function checkPassword() {
  let input = document.getElementById(" ++ dq ++ "pwdInput" ++ dq ++ ").value;
  if (input === PASSWORD) {
    document.getElementById(" ++ dq ++ "loginDiv" ++ dq ++ ").style.display = " ++ dq ++ "none" ++ dq ++ ";
    document.getElementById(" ++ dq ++ "mainContent" ++ dq ++ ").style.display = " ++ dq ++ "block" ++ dq ++ ";
    paginateTable();
    updateUserCount();
  } else {
    alert(" ++ dq ++ "Incorrect password. Please try again." ++ dq ++ ");
    document.getElementById(" ++ dq ++ "pwdInput" ++ dq ++ ").value = " ++ dq ++ dq ++ ";
  }
}


function updateUserCount() {
  const allRows = Array.from(table.rows);
  const activeRows = allRows.filter(row => !row.classList.contains(" ++ dq ++ "deleted" ++ dq ++ "));
  const deletedRows = allRows.filter(row => row.classList.contains(" ++ dq ++ "deleted" ++ dq ++ "));
  
  // Update the count to show active users
  document.getElementById(" ++ dq ++ "userCount" ++ dq ++ ").textContent = activeRows.length;
  
  // Optionally show deleted count in header
  let deletedInfo = document.getElementById(" ++ dq ++ "deletedCount" ++ dq ++ ");
  if (!deletedInfo && deletedRows.length > 0) {
    let statsDiv = document.querySelector(" ++ dq ++ ".header-stats" ++ dq ++ ");
    let deletedStat = document.createElement(" ++ dq ++ "div" ++ dq ++ ");
    deletedStat.className = " ++ dq ++ "stat-item" ++ dq ++ ";
    deletedStat.innerHTML = `Marked for Deletion<span class=" ++ dq ++ "stat-value" ++ dq ++ " id=" ++ dq ++ "deletedCount" ++ dq ++ " style=" ++ dq ++ "color: #ef4444;" ++ dq ++ ">${deletedRows.length}</span>`;
    statsDiv.appendChild(deletedStat);
  } else if (deletedInfo) {
    if (deletedRows.length > 0) {
      deletedInfo.textContent = deletedRows.length;
    } else {
      deletedInfo.parentElement.remove();
    }
  }
}

function paginateTable() {
  const rows = Array.from(table.rows); // Include ALL rows, including deleted
  const totalPages = Math.ceil(rows.length / rowsPerPage);
  
  // Hide all rows first
  rows.forEach(row => row.style.display = " ++ dq ++ "none" ++ dq ++ ");
  
  // Show rows for current page (including deleted ones)
  const start = (currentPage - 1) * rowsPerPage;
  const end = start + rowsPerPage;
  rows.slice(start, end).forEach(row => row.style.display = " ++ dq ++ dq ++ ");
  
  // Update pagination buttons
  let pagDiv = document.getElementById(" ++ dq ++ "pagination" ++ dq ++ ");
  pagDiv.innerHTML = " ++ dq ++ dq ++ ";
  
  if (totalPages > 1) {
    for (let i = 1; i <= totalPages; i++) {
      let btn = document.createElement(" ++ dq ++ "button" ++ dq ++ ");
      btn.textContent = i;
      if (i === currentPage) btn.classList.add(" ++ dq ++ "active" ++ dq ++ ");
      btn.onclick = () => { 
        currentPage = i; 
        paginateTable(); 
      };
      pagDiv.appendChild(btn);
    }
  }
}

function deleteRow(btn) {
  let row = btn.parentNode.parentNode;
  
  if (row.classList.contains(" ++ dq ++ "deleted" ++ dq ++ ")) {
    // Restore the row
    row.classList.remove(" ++ dq ++ "deleted" ++ dq ++ ");
    btn.textContent = " ++ dq ++ "Remove" ++ dq ++ ";
    btn.classList.remove(" ++ dq ++ "restore-btn" ++ dq ++ ");
    
    // Re-enable editing
    let cells = row.querySelectorAll(" ++ dq ++ ".editable-cell" ++ dq ++ ");
    cells.forEach(cell => {
      cell.contentEditable = " ++ dq ++ "true" ++ dq ++ ";
    });
    
    // Re-enable auth dropdown
    let authSelect = row.querySelector(" ++ dq ++ ".auth-select" ++ dq ++ ");
    if (authSelect) {
      authSelect.disabled = false;
    }
  } else {
    // Mark as deleted
    if (confirm(" ++ dq ++ "Mark this user for deletion?" ++ dq ++ ")) {
      row.classList.add(" ++ dq ++ "deleted" ++ dq ++ ");
      btn.textContent = " ++ dq ++ "Restore" ++ dq ++ ";
      btn.classList.add(" ++ dq ++ "restore-btn" ++ dq ++ ");
      
      // Disable editing on deleted rows
      let cells = row.querySelectorAll(" ++ dq ++ ".editable-cell" ++ dq ++ ");
      cells.forEach(cell => {
        cell.contentEditable = " ++ dq ++ "false" ++ dq ++ ";
      });
      
      // Disable auth dropdown
      let authSelect = row.querySelector(" ++ dq ++ ".auth-select" ++ dq ++ ");
      if (authSelect) {
        authSelect.disabled = true;
      }
    }
  }
  
  updateUserCount();
  paginateTable();
}

function markModified(element) {
  let row = element.closest(" ++ dq ++ "tr" ++ dq ++ ");
  if (!row.classList.contains(" ++ dq ++ "deleted" ++ dq ++ ")) {
    row.classList.add(" ++ dq ++ "modified" ++ dq ++ ");
  }
}

function addRow() {
  let row = table.insertRow();
  row.classList.add(" ++ dq ++ "added" ++ dq ++ ");
  
  // Add name cell
  let nameCell = row.insertCell();
  nameCell.classList.add(" ++ dq ++ "editable-cell" ++ dq ++ ");
  nameCell.contentEditable = " ++ dq ++ "true" ++ dq ++ ";
  nameCell.textContent = " ++ dq ++ dq ++ ";
  nameCell.addEventListener(" ++ dq ++ "input" ++ dq ++ ", function() {
    if (!this.parentNode.classList.contains(" ++ dq ++ "deleted" ++ dq ++ ")) {
      this.parentNode.classList.add(" ++ dq ++ "modified" ++ dq ++ ");
    }
  });
  
  // Add passcode cell
  let passcodeCell = row.insertCell();
  passcodeCell.classList.add(" ++ dq ++ "editable-cell" ++ dq ++ ", " ++ dq ++ "passcode-cell" ++ dq ++ ");
  passcodeCell.contentEditable = " ++ dq ++ "true" ++ dq ++ ";
  passcodeCell.textContent = " ++ dq ++ dq ++ ";
  passcodeCell.addEventListener(" ++ dq ++ "input" ++ dq ++ ", function() {
    if (!this.parentNode.classList.contains(" ++ dq ++ "deleted" ++ dq ++ ")) {
      this.parentNode.classList.add(" ++ dq ++ "modified" ++ dq ++ ");
    }
  });
  
  // Add authority cell with dropdown
  let authCell = row.insertCell();
  authCell.classList.add(" ++ dq ++ "auth-cell" ++ dq ++ ");
  let selectHtml = `<select class=" ++ dq ++ "auth-select" ++ dq ++ " onchange=" ++ dq ++ "markModified(this)" ++ dq ++ ">
    <option value=" ++ dq ++ "None" ++ dq ++ " selected>None</option>`;
  for (let level = 1; level <= 8; level++) {
    selectHtml += `<option value=" ++ dq ++ "A${level}" ++ dq ++ ">A${level}</option>`;
  }
  selectHtml += `</select>`;
  authCell.innerHTML = selectHtml;
  
  // Add action cell
  let actionCell = row.insertCell();
  actionCell.classList.add(" ++ dq ++ "action-cell" ++ dq ++ ");
  actionCell.innerHTML = `<button class=" ++ dq ++ "delete-btn" ++ dq ++ " onclick='deleteRow(this)'>Remove</button>`;
  
  updateUserCount();
  paginateTable();
  
  // Focus on first cell of new row
  row.cells[0].focus();
}

// Add event listeners to existing editable cells
document.addEventListener(" ++ dq ++ "DOMContentLoaded" ++ dq ++ ", function() {
  document.querySelectorAll(" ++ dq ++ ".editable-cell" ++ dq ++ ").forEach(cell => {
    cell.addEventListener(" ++ dq ++ "input" ++ dq ++ ", function() {
      if (!this.parentNode.classList.contains(" ++ dq ++ "deleted" ++ dq ++ ")) {
        this.parentNode.classList.add(" ++ dq ++ "modified" ++ dq ++ ");
      }
    });
  });
});

function exportHTML() {
  if (confirm(" ++ dq ++ "Export the current report with all changes?" ++ dq ++ ")) {
    let html = document.documentElement.outerHTML;
    let blob = new Blob([html], {type: " ++ dq ++ "text/html" ++ dq ++ "});
    let a = document.createElement(" ++ dq ++ "a" ++ dq ++ ");
    a.href = URL.createObjectURL(blob);
    a.download = " ++ dq ++ "Bosch_Report_" ++ dq ++ " + new Date().toISOString().slice(0,10) + " ++ dq ++ ".html" ++ dq ++ ";
    a.click();
    alert(" ++ dq ++ "Report exported successfully!" ++ dq ++ ");
  }
}

// Add keyboard shortcut for password entry
document.getElementById(" ++ dq ++ "pwdInput" ++ dq ++ ")?.addEventListener(" ++ dq ++ "keypress" ++ dq ++ ", function(e) {
  if (e.key === " ++ dq ++ "Enter" ++ dq ++ ") {
    checkPassword();
  }
});
</script>
</body>
</html>
".

(** *** [html.escape(s)], with [quote=True] *)
Definition html_escape (s : string) : string :=
  let s := replace "&" "&amp;" s in
  let s := replace "<" "&lt;" s in
  let s := replace ">" "&gt;" s in
  let s := replace dq "&quot;" s in
  let s := replace "'" "&#x27;" s in
  s.

(** *** [json.dumps(s)] for a [str], with [ensure_ascii=True] *)

Definition hex_digit (n : nat) : ascii :=
  if Nat.ltb n 10 then ascii_of_nat (48 + n) else ascii_of_nat (87 + n).

(** ['\\u{0:04x}'.format(n)] for [n] below 256. *)
Definition u_escape (n : nat) : string :=
  "\u00" ++ String (hex_digit (n / 16)) (String (hex_digit (n mod 16)) EmptyString).

Definition json_escape_char (c : ascii) : string :=
  if Ascii.eqb c "034" then "\" ++ dq
  else if Ascii.eqb c "\" then "\\"
  else if Ascii.eqb c "010" then "\n"
  else if Ascii.eqb c "013" then "\r"
  else if Ascii.eqb c "009" then "\t"
  else if Ascii.eqb c "008" then "\b"
  else if Ascii.eqb c "012" then "\f"
  else if between 32 126 c then String c EmptyString
  else u_escape (code c).

Fixpoint json_escape (s : string) : string :=
  match s with
  | EmptyString => EmptyString
  | String c r => json_escape_char c ++ json_escape r
  end.

Definition json_dumps (s : string) : string := dq ++ json_escape s ++ dq.

(** *** The clock *)

Record datetime : Type := mkDatetime {
  year : nat;
  month : nat;
  day : nat;
  hour : nat;
  minute : nat;
  second : nat
}.

Definition month_abbr (m : nat) : string :=
  nth (m - 1)
    ["Jan"; "Feb"; "Mar"; "Apr"; "May"; "Jun";
     "Jul"; "Aug"; "Sep"; "Oct"; "Nov"; "Dec"] EmptyString.

Definition two_digits (n : nat) : string :=
  if Nat.ltb n 10 then "0" ++ str_of_nat n else str_of_nat n.

(** [now.strftime('%b %d, %Y')] in the C locale. *)
Definition strftime_b_d_Y (now : datetime) : string :=
  month_abbr (month now) ++ " " ++ two_digits (day now) ++ ", " ++ str_of_nat (year now).

(** *** The rows *)

(** [auth_num] of a row: the digit of ["A1"], ["A2"], ..., else ["None"]. *)
Definition auth_num_of (auth_value : string) : string :=
  if startswith "A" auth_value
     && Nat.eqb (String.length auth_value) 2
     && isdigit (slice_to 1 (slice_from 1 auth_value))
  then slice_to 1 (slice_from 1 auth_value)
  else "None".

Definition option_none (auth_num : string) : string :=
  "<option value=" ++ dq ++ "None" ++ dq
  ++ (if auth_num =? "None" then " selected" else EmptyString)
  ++ ">None</option>".

Definition option_level (auth_num : string) (level : nat) : string :=
  let selected := if str_of_nat level =? auth_num then " selected" else EmptyString in
  "<option value=" ++ dq ++ "A" ++ str_of_nat level ++ dq ++ selected
  ++ ">A" ++ str_of_nat level ++ "</option>".

(** [range(1, 9)] *)
Definition LEVELS : list nat := seq 1 8.

Definition auth_options (auth_num : string) : list string :=
  option_none auth_num :: map (option_level auth_num) LEVELS.

(** The text added to [table_rows] for one row. *)
Definition render_row (row : user_row) : string :=
  let auth_num := auth_num_of (auth row) in
  ROW_OPEN ++ html_escape (name row)
  ++ ROW_AFTER_NAME ++ html_escape (passcode row)
  ++ ROW_AFTER_PASSCODE ++ join EmptyString (auth_options auth_num)
  ++ ROW_CLOSE.

(** The loop [for row in data: table_rows += ...]. *)
Definition table_rows_of (data : list user_row) : string :=
  fold_left (fun table_rows row => table_rows ++ render_row row) data EmptyString.

(** *** The logo *)

(** [mime_type in ['png', 'jpeg', 'gif', 'webp']] *)
Definition mime_allowed (mime_type : string) : bool :=
  existsb (String.eqb mime_type) ["png"; "jpeg"; "gif"; "webp"].

Definition logo_html_of (logo_data : option (string * string)) : string :=
  match logo_data with
  | Some (logo_b64, mime_type) =>
      if mime_allowed mime_type
      then LOGO_OPEN ++ mime_type ++ LOGO_AFTER_MIME ++ logo_b64 ++ LOGO_CLOSE
      else EmptyString
  | None => EmptyString
  end.

(** [json.dumps(password) if password else '""'] *)
Definition password_literal (password : string) : string :=
  if truthy password then json_dumps password else dq ++ dq.

(** *** The page

    [now] is the value of [datetime.now()], read once. *)
Definition generate_html (now : datetime) (data : list user_row)
    (password : string) (logo_data : option (string * string)) : string :=
  let table_rows := table_rows_of data in
  let logo_html := logo_html_of logo_data in
  PAGE_OPEN ++ STYLE_SHEET ++ PAGE_BEFORE_LOGO
  ++ (match logo_data with Some _ => logo_html | None => EmptyString end)
  ++ PAGE_BEFORE_DATE ++ strftime_b_d_Y now
  ++ PAGE_BEFORE_COUNT ++ str_of_nat (List.length data)
  ++ PAGE_BEFORE_ROWS ++ table_rows
  ++ PAGE_BEFORE_PASSWORD ++ password_literal password
  ++ PAGE_SCRIPT.

(** *** Views of the page, for the statements below *)

(** The page before and after the rows of the table. *)
Definition page_before_rows (now : datetime) (count : nat)
    (logo_data : option (string * string)) : string :=
  PAGE_OPEN ++ STYLE_SHEET ++ PAGE_BEFORE_LOGO
  ++ (match logo_data with Some _ => logo_html_of logo_data | None => EmptyString end)
  ++ PAGE_BEFORE_DATE ++ strftime_b_d_Y now
  ++ PAGE_BEFORE_COUNT ++ str_of_nat count
  ++ PAGE_BEFORE_ROWS.

Definition page_after_rows (password : string) : string :=
  PAGE_BEFORE_PASSWORD ++ password_literal password ++ PAGE_SCRIPT.

(** A row of the table around two cell texts. *)
Definition row_around (name_text passcode_text auth_value : string) : string :=
  ROW_OPEN ++ name_text
  ++ ROW_AFTER_NAME ++ passcode_text
  ++ ROW_AFTER_PASSCODE ++ join EmptyString (auth_options (auth_num_of auth_value))
  ++ ROW_CLOSE.

Fixpoint concat_all (pieces : list string) : string :=
  match pieces with
  | [] => EmptyString
  | p :: more => p ++ concat_all more
  end.

(** The page before and after the date of the report. *)
Definition page_before_date (logo_data : option (string * string)) : string :=
  PAGE_OPEN ++ STYLE_SHEET ++ PAGE_BEFORE_LOGO
  ++ (match logo_data with Some _ => logo_html_of logo_data | None => EmptyString end)
  ++ PAGE_BEFORE_DATE.

Definition page_after_date (data : list user_row) (password : string) : string :=
  PAGE_BEFORE_COUNT ++ str_of_nat (List.length data)
  ++ PAGE_BEFORE_ROWS ++ table_rows_of data
  ++ PAGE_BEFORE_PASSWORD ++ password_literal password
  ++ PAGE_SCRIPT.

(** The page before the value of [PASSWORD]. *)
Definition page_before_password (now : datetime) (data : list user_row)
    (logo_data : option (string * string)) : string :=
  page_before_rows now (List.length data) logo_data
  ++ table_rows_of data ++ PAGE_BEFORE_PASSWORD.

(** The replacement [html.escape] makes for one character. *)
Definition escape_char (c : ascii) : string :=
  if Ascii.eqb c "&" then "&amp;"
  else if Ascii.eqb c "<" then "&lt;"
  else if Ascii.eqb c ">" then "&gt;"
  else if Ascii.eqb c "034" then "&quot;"
  else if Ascii.eqb c "'" then "&#x27;"
  else String c EmptyString.

(** The characters with a meaning in markup. *)
Definition is_markup (c : ascii) : bool :=
  Ascii.eqb c "&" || Ascii.eqb c "<" || Ascii.eqb c ">"
  || Ascii.eqb c "034" || Ascii.eqb c "'".

Definition ENTITIES : list string :=
  ["&amp;"; "&lt;"; "&gt;"; "&quot;"; "&#x27;"].

(** Inert text: character references and characters without a meaning in
    markup, nothing else. *)
Inductive inert : string -> Prop :=
| inert_empty : inert EmptyString
| inert_plain c s : is_markup c = false -> inert s -> inert (String c s)
| inert_entity e s : In e ENTITIES -> inert s -> inert (e ++ s).

(** Characters [json.dumps] copies as they are. *)
Definition json_plain (c : ascii) : bool :=
  between 32 126 c && negb (Ascii.eqb c "034") && negb (Ascii.eqb c "\").

End Render.

(* ================================================================== *)
(** ** The script of the rendered document *)

Module DocModel.
Import PyStr Parser.

(** An editable cell of a row. *)
Record cell : Type := mkCell {
  contentEditable : string;
  textContent : string
}.

(** What the script reads and writes of a table row: the class list of
    the [tr], its two editable cells, its [select], its button and
    [style.display]. *)
Record row : Type := mkDocRow {
  classList : list string;
  name_cell : cell;
  passcode_cell : cell;
  select_value : string;
  select_disabled : bool;
  btn_text : string;
  btn_classList : list string;
  display : string
}.

(** [classList.contains], [classList.add], [classList.remove]. *)
Definition cl_contains (t : string) (l : list string) : bool :=
  existsb (String.eqb t) l.

Definition cl_add (t : string) (l : list string) : list string :=
  if cl_contains t l then l else (l ++ [t])%list.

Definition cl_remove (t : string) (l : list string) : list string :=
  filter (fun x => negb (x =? t)) l.

Definition set_editable (v : string) (c : cell) : cell :=
  mkCell v (textContent c).

(** The effect of [deleteRow(btn)] on the row of the button; [answer] is
    what [confirm] returns when it is asked. *)
Definition deleteRow_row (answer : bool) (r : row) : row :=
  if cl_contains "deleted" (classList r) then
    mkDocRow (cl_remove "deleted" (classList r))
             (set_editable "true" (name_cell r))
             (set_editable "true" (passcode_cell r))
             (select_value r) false
             "Remove" (cl_remove "restore-btn" (btn_classList r))
             (display r)
  else if answer then
    mkDocRow (cl_add "deleted" (classList r))
             (set_editable "false" (name_cell r))
             (set_editable "false" (passcode_cell r))
             (select_value r) true
             "Restore" (cl_add "restore-btn" (btn_classList r))
             (display r)
  else r.

(** [markModified(element)], and the [input] listener of the cells, which
    has the same body. *)
Definition markModified (r : row) : row :=
  if negb (cl_contains "deleted" (classList r)) then
    mkDocRow (cl_add "modified" (classList r)) (name_cell r) (passcode_cell r)
             (select_value r) (select_disabled r)
             (btn_text r) (btn_classList r) (display r)
  else r.

(** The user types in a cell: possible only while the cell is editable;
    the text changes and the [input] listener runs. *)
Definition type_name (text : string) (r : row) : row :=
  if contentEditable (name_cell r) =? "true" then
    markModified
      (mkDocRow (classList r) (mkCell (contentEditable (name_cell r)) text)
                (passcode_cell r) (select_value r) (select_disabled r)
                (btn_text r) (btn_classList r) (display r))
  else r.

Definition type_passcode (text : string) (r : row) : row :=
  if contentEditable (passcode_cell r) =? "true" then
    markModified
      (mkDocRow (classList r) (name_cell r)
                (mkCell (contentEditable (passcode_cell r)) text)
                (select_value r) (select_disabled r)
                (btn_text r) (btn_classList r) (display r))
  else r.

(** The user picks a level: possible only while the [select] is enabled;
    [onchange] calls [markModified]. *)
Definition choose_auth (value : string) (r : row) : row :=
  if select_disabled r then r
  else markModified
         (mkDocRow (classList r) (name_cell r) (passcode_cell r)
                   value (select_disabled r)
                   (btn_text r) (btn_classList r) (display r)).

(** The row made by [addRow]. *)
Definition added_row : row :=
  mkDocRow ["added"] (mkCell "true" EmptyString) (mkCell "true" EmptyString)
           "None" false "Remove" ["delete-btn"] EmptyString.

(** The row the browser builds from the markup of [generate_html] for one
    record: no class, both cells editable, the selected option (the first
    one when none is marked), the Remove button. *)
Definition rendered_row (u : user_row) : row :=
  let auth_num := Render.auth_num_of (auth u) in
  let value :=
    if existsb (fun level => str_of_nat level =? auth_num) Render.LEVELS
    then "A" ++ auth_num else "None" in
  mkDocRow [] (mkCell "true" (name u)) (mkCell "true" (passcode u))
           value false "Remove" ["delete-btn"] EmptyString.

(** The document: the rows of the table body, the variables of the script
    and the parts of the page the script rewrites. *)
Record document : Type := mkDoc {
  PASSWORD : string;
  revealed : bool;
  rows : list row;
  currentPage : nat;
  userCount : string;
  deletedCount : option string;
  pagination : list (string * bool)
}.

Definition rowsPerPage : nat := 50.

Definition with_rows (rs : list row) (d : document) : document :=
  mkDoc (PASSWORD d) (revealed d) rs (currentPage d) (userCount d)
        (deletedCount d) (pagination d).

Definition is_deleted (r : row) : bool := cl_contains "deleted" (classList r).

(** [updateUserCount()] *)
Definition updateUserCount (d : document) : document :=
  let activeRows := filter (fun r => negb (is_deleted r)) (rows d) in
  let deletedRows := filter is_deleted (rows d) in
  let deletedInfo :=
    match deletedCount d with
    | None =>
        if Nat.ltb 0 (List.length deletedRows)
        then Some (str_of_nat (List.length deletedRows)) else None
    | Some _ =>
        if Nat.ltb 0 (List.length deletedRows)
        then Some (str_of_nat (List.length deletedRows)) else None
    end in
  mkDoc (PASSWORD d) (revealed d) (rows d) (currentPage d)
        (str_of_nat (List.length activeRows)) deletedInfo (pagination d).

Definition set_display (v : string) (r : row) : row :=
  mkDocRow (classList r) (name_cell r) (passcode_cell r) (select_value r)
           (select_disabled r) (btn_text r) (btn_classList r) v.

(** Rows [start <= k < stop] shown, the others hidden; [k] is the index of
    the first row of the list. *)
Fixpoint show_slice (start stop k : nat) (rs : list row) : list row :=
  match rs with
  | [] => []
  | r :: more =>
      set_display (if Nat.leb start k && Nat.ltb k stop then EmptyString else "none") r
      :: show_slice start stop (S k) more
  end.

(** [paginateTable()] *)
Definition paginateTable (d : document) : document :=
  let totalPages := (List.length (rows d) + (rowsPerPage - 1)) / rowsPerPage in
  let start := (currentPage d - 1) * rowsPerPage in
  let stop := start + rowsPerPage in
  let buttons :=
    if Nat.ltb 1 totalPages
    then map (fun i => (str_of_nat i, Nat.eqb i (currentPage d))) (seq 1 totalPages)
    else [] in
  mkDoc (PASSWORD d) (revealed d) (show_slice start stop 0 (rows d))
        (currentPage d) (userCount d) (deletedCount d) buttons.

(** Apply [f] to the row of index [i]. *)
Fixpoint at_row (i : nat) (f : row -> row) (rs : list row) : list row :=
  match rs, i with
  | [], _ => []
  | r :: more, O => f r :: more
  | r :: more, S k => r :: at_row k f more
  end.

(** What the user can do with the open document. *)
Inductive action : Type :=
| Authenticate (input : string)
| ClickRemove (i : nat) (answer : bool)
| TypeName (i : nat) (text : string)
| TypePasscode (i : nat) (text : string)
| ChooseAuth (i : nat) (value : string)
| ClickAdd
| ClickPage (p : nat).

(** [checkPassword()] *)
Definition checkPassword (input : string) (d : document) : document :=
  if input =? PASSWORD d then
    updateUserCount
      (paginateTable
         (mkDoc (PASSWORD d) true (rows d) (currentPage d) (userCount d)
                (deletedCount d) (pagination d)))
  else d.

(** [deleteRow(btn)] for the button of row [i]. *)
Definition deleteRow (i : nat) (answer : bool) (d : document) : document :=
  paginateTable (updateUserCount (with_rows (at_row i (deleteRow_row answer) (rows d)) d)).

(** [addRow()] *)
Definition addRow (d : document) : document :=
  paginateTable (updateUserCount (with_rows (rows d ++ [added_row])%list d)).

Definition step (d : document) (a : action) : document :=
  match a with
  | Authenticate input => checkPassword input d
  | ClickRemove i answer => deleteRow i answer d
  | TypeName i text => with_rows (at_row i (type_name text) (rows d)) d
  | TypePasscode i text => with_rows (at_row i (type_passcode text) (rows d)) d
  | ChooseAuth i value => with_rows (at_row i (choose_auth value) (rows d)) d
  | ClickAdd => addRow d
  | ClickPage p =>
      paginateTable
        (mkDoc (PASSWORD d) (revealed d) (rows d) p (userCount d)
               (deletedCount d) (pagination d))
  end.

Definition run (d : document) (acts : list action) : document :=
  fold_left step acts d.

(** The document as the browser loads it from the output of
    [generate_html]. *)
Definition loaded (data : list user_row) (password : string) : document :=
  mkDoc password false (map rendered_row data) 1
        (str_of_nat (List.length data)) None [].

(** The state of a row, read off its class list. *)
Inductive RowState : Type := Normal | Modified | Deleted | Added.

Definition state_of (r : row) : RowState :=
  if cl_contains "deleted" (classList r) then Deleted
  else if cl_contains "added" (classList r) then Added
  else if cl_contains "modified" (classList r) then Modified
  else Normal.

(** What the script keeps true of a row: a deleted row cannot be edited
    and its button restores; any other row can be edited and its button
    removes. *)
Definition settled (r : row) : Prop :=
  contentEditable (name_cell r) = (if is_deleted r then "false" else "true")
  /\ contentEditable (passcode_cell r) = (if is_deleted r then "false" else "true")
  /\ select_disabled r = is_deleted r
  /\ btn_text r = (if is_deleted r then "Restore" else "Remove")
  /\ cl_contains "restore-btn" (btn_classList r) = is_deleted r.

(** Two rows that differ in [style.display] at most. *)
Definition same_row (r1 r2 : row) : Prop :=
  set_display EmptyString r1 = set_display EmptyString r2.

(** What an action does to the row of index [i]. *)
Definition effect (a : action) (i : nat) (r : row) : row :=
  match a with
  | ClickRemove j answer => if Nat.eqb j i then deleteRow_row answer r else r
  | TypeName j text => if Nat.eqb j i then type_name text r else r
  | TypePasscode j text => if Nat.eqb j i then type_passcode text r else r
  | ChooseAuth j value => if Nat.eqb j i then choose_auth value r else r
  | Authenticate _ | ClickAdd | ClickPage _ => r
  end.

End DocModel.

(* ================================================================== *)
(** ** Views of texts, for the statements about the parser *)

Module TextViews.
Import PyStr.

(** A word: not empty and without whitespace. *)
Definition is_word_text (w : string) : Prop :=
  truthy w = true /\ forall_chars (fun c => negb (isspace c)) w = true.

(** A text of whitespace only. *)
Definition blank (s : string) : Prop := forall_chars isspace s = true.

(** The number of commas of a text. *)
Fixpoint commas (s : string) : nat :=
  match s with
  | EmptyString => 0
  | String c r => (if Ascii.eqb c "," then 1 else 0) + commas r
  end.

End TextViews.

(* ================================================================== *)
(** ** How the browser reads the texts the renderer writes *)

Module Reader.
Import PyStr Render.









(** The markup of one option of the select. *)
Definition option_markup (value : string) (selected : bool) : string :=
  "<option value=" ++ dq ++ value ++ dq
  ++ (if selected then " selected" else EmptyString)
  ++ ">" ++ value ++ "</option>".

(** The values of the options, in the order of the select. *)
Definition OPTION_VALUES : list string :=
  ["None"; "A1"; "A2"; "A3"; "A4"; "A5"; "A6"; "A7"; "A8"].

End Reader.

(* ================================================================== *)
(** ** Counts and pages of the document *)

Module DocViews.
Import PyStr DocModel.



(** [Math.ceil(n / rowsPerPage)] *)
Definition total_pages (n : nat) : nat := (n + (rowsPerPage - 1)) / rowsPerPage.

(** The page, counted from 1, that holds the row of index [k]. *)
Definition page_of (k : nat) : nat := k / rowsPerPage + 1.

(** [style.display] of a row that is, or is not, on the current page. *)
Definition display_on (shown : bool) : string :=
  if shown then EmptyString else "none".


Definition is_add (a : action) : bool :=
  match a with
  | ClickAdd => true
  | _ => false
  end.


End DocViews.

(* ================================================================== *)
(** ** [process_logo] *)

Module Logo.
Import PyStr Parser Render.

(** *** [base64.b64encode] *)

Definition B64_ALPHABET : string :=
  "ABCDEFGHIJKLMNOPQRSTUVWXYZabcdefghijklmnopqrstuvwxyz0123456789+/".

(** The character for a group of six bits. *)
Definition b64_char (n : nat) : ascii :=
  match String.get n B64_ALPHABET with
  | Some c => c
  | None => "="%char
  end.

(** Three bytes give four characters; one or two bytes left at the end
    give two or three characters and the padding. *)
Fixpoint b64encode (data : string) : string :=
  match data with
  | EmptyString => EmptyString
  | String a EmptyString =>
      String (b64_char (code a / 4))
        (String (b64_char (code a mod 4 * 16)) "==")
  | String a (String b EmptyString) =>
      String (b64_char (code a / 4))
        (String (b64_char (code a mod 4 * 16 + code b / 16))
           (String (b64_char (code b mod 16 * 4)) "="))
  | String a (String b (String c rest)) =>
      String (b64_char (code a / 4))
        (String (b64_char (code a mod 4 * 16 + code b / 16))
           (String (b64_char (code b mod 16 * 4 + code c / 64))
              (String (b64_char (code c mod 64)) (b64encode rest))))
  end.

(** *** [os.path.splitext] *)

(** [s.rfind(c)], nothing standing for -1. *)
Fixpoint rfind (c : ascii) (s : string) : option nat :=
  match s with
  | EmptyString => None
  | String d r =>
      match rfind c r with
      | Some i => Some (S i)
      | None => if Ascii.eqb d c then Some 0 else None
      end
  end.

(** The index after the last separator, 0 when there is none: [seps] are
    the separators of the platform, the slash alone or the backslash and
    the slash. *)
Fixpoint after_last_sep (seps : list ascii) (p : string) : nat :=
  match seps with
  | [] => 0
  | sep :: more =>
      Nat.max (match rfind sep p with Some i => S i | None => 0 end)
              (after_last_sep more p)
  end.

(** [p[i:j]] *)
Definition slice (i j : nat) (p : string) : string :=
  slice_to (j - i) (slice_from i p).

(** The extension is what follows the last dot of the last component,
    unless only dots come before it in that component. *)
Definition splitext (seps : list ascii) (p : string) : string * string :=
  match rfind "." p with
  | Some dotIndex =>
      let filenameIndex := after_last_sep seps p in
      if Nat.leb filenameIndex dotIndex
         && negb (forall_chars (Ascii.eqb ".") (slice filenameIndex dotIndex p))
      then (slice_to dotIndex p, slice_from dotIndex p)
      else (p, EmptyString)
  | None => (p, EmptyString)
  end.

(** [mime_types.get(ext, 'png')] *)
Definition mime_of_ext (ext : string) : string :=
  if ext =? ".png" then "png"
  else if ext =? ".jpg" then "jpeg"
  else if ext =? ".jpeg" then "jpeg"
  else if ext =? ".gif" then "gif"
  else if ext =? ".webp" then "webp"
  else "png".

(** *** The function *)

(** A message box shown to the user, or the dialog that asks where to
    save. *)
Inductive dialog : Type :=
| AskYesNo (title message : string)
| ShowError (title message : string)
| AskSaveAs (initialfile : string).

(** [100 * 1024], the warning threshold. *)
Definition LARGE_LOGO : nat := 100 * 1024.

Definition large_logo_message (file_size : nat) : string :=
  "The logo image is " ++ str_of_nat (file_size / 1024)
  ++ "KB. Large images may slow down the report."
  ++ String LF (String LF "For best performance, use images under 100KB.")
  ++ String LF (String LF "Continue anyway?").

(** [str(e)]: the message of [ValueError], and [os_text], the text of the
    system, for the error of [open]. *)
Definition str_of_error (os_text : string) (e : error) : string :=
  match e with
  | ValueError msg => msg
  | OSError => os_text
  end.

(** [process_logo(image_path)]: what it returns and the boxes it shows.
    [files] gives for a path what reading it in binary mode yields, the
    string of a regular file being its bytes; [answer] is what the user
    answers to the warning, if it is asked. *)
Definition process_logo (files : filesystem) (seps : list ascii)
    (os_text : string) (answer : bool) (image_path : string)
  : option (string * string) * list dialog :=
  if negb (isfile files image_path) then
    (None, [ShowError "Logo Error"
              ("Failed to process logo: " ++ "Invalid image file path")])
  else
    match open_read files image_path with
    | Raises e =>
        (None, [ShowError "Logo Error"
                  ("Failed to process logo: " ++ str_of_error os_text e)])
    | Returns img_data =>
        let file_size := String.length img_data in
        let ext := lower (snd (splitext seps image_path)) in
        let mime_type := mime_of_ext ext in
        let result := Some (b64encode img_data, mime_type) in
        if Nat.ltb LARGE_LOGO file_size then
          let asked := AskYesNo "Large Image Warning" (large_logo_message file_size) in
          if answer then (result, [asked]) else (None, [asked])
        else (result, [])
    end.

(** The characters of a base64 text. *)
Definition is_b64_char (c : ascii) : bool :=
  between 65 90 c || between 97 122 c || between 48 57 c
  || Ascii.eqb c "+" || Ascii.eqb c "/" || Ascii.eqb c "=".

End Logo.

(* ================================================================== *)
(** ** [generate_report], the command of the form *)

Module Gui.
Import PyStr Parser Render Logo.

(** The three entries of the form. *)
Record form : Type := mkForm {
  file_entry : string;
  pwd_entry : string;
  logo_entry : string
}.

(** What the command finds around it: the files as read in text mode and
    in binary mode, the separators of paths, the text of the system for a
    failed [open], the answer to the large-logo warning, the path the save
    dialog returns (empty when cancelled), the error of writing the
    report if it fails, and the clock at its two readings. *)
Record world : Type := mkWorld {
  texts : filesystem;
  binaries : filesystem;
  path_seps : list ascii;
  os_text : string;
  large_logo_answer : bool;
  save_path : string;
  write_error : option string;
  clock_page : datetime;
  clock_name : datetime
}.

(** What the command leaves: the text and the colour of the status line,
    the report written in full, if any, and the boxes shown, in order. *)
Record result : Type := mkResult {
  status : string;
  status_is_error : bool;
  saved : option (string * string);
  shown : list dialog
}.

(** [now.strftime('%Y-%m-%d_%H-%M')], for a year of four digits. *)
Definition strftime_Y_m_d_H_M (now : datetime) : string :=
  str_of_nat (year now) ++ "-" ++ two_digits (month now) ++ "-"
  ++ two_digits (day now) ++ "_" ++ two_digits (hour now) ++ "-"
  ++ two_digits (minute now).

Definition default_name (now : datetime) : string :=
  "Bosch_Report_" ++ strftime_Y_m_d_H_M now ++ ".html".

(** [f"ERROR: {str(e)[:40]}"] *)
Definition error_status (text : string) : string :=
  "ERROR: " ++ slice_to 40 text.

(** The part of the command after the logo: render, ask where to save,
    write. *)
Definition render_and_save (w : world) (f : form) (data : list user_row)
    (logo_data : option (string * string)) (boxes : list dialog) : result :=
  let html := generate_html (clock_page w) data (pwd_entry f) logo_data in
  let boxes := (boxes ++ [AskSaveAs (default_name (clock_name w))])%list in
  if truthy (save_path w) then
    match write_error w with
    | None =>
        mkResult ("SUCCESS: REPORT SAVED [" ++ str_of_nat (List.length data)
                  ++ " USERS]")
                 false (Some (save_path w, html)) boxes
    | Some text => mkResult (error_status text) true None boxes
    end
  else mkResult "OPERATION CANCELLED" false None boxes.

Definition generate_report (w : world) (f : form) : result :=
  if negb (truthy (file_entry f)) then
    mkResult "ERROR: NO INPUT FILE SELECTED" true None []
  else
    match parse_bosch_txt (texts w) (file_entry f) with
    | Raises e => mkResult (error_status (str_of_error (os_text w) e)) true None []
    | Returns data =>
        match data with
        | [] => mkResult "WARNING: NO DATA FOUND" true None []
        | _ :: _ =>
            if truthy (logo_entry f) then
              match process_logo (binaries w) (path_seps w) (os_text w)
                      (large_logo_answer w) (logo_entry f) with
              | (None, boxes) => mkResult "PROCESSING..." false None boxes
              | (Some logo, boxes) => render_and_save w f data (Some logo) boxes
              end
            else render_and_save w f data None []
        end
    end.

End Gui.

(* ================================================================== *)
(** ** Facts about the parser *)

Module ParserFacts.
Import PyStr Re Parser.

Lemma process_line_kept (seen : seen_users) (line : string) :
  process_line seen line =
  match kept_record line with
  | Some (user_id, row) =>
      if has_key user_id seen then seen else add_key user_id row seen
  | None => seen
  end.
Proof.
  unfold process_line, kept_record, candidate.
  destruct (startswith "User " (clean_line line)); [|reflexivity].
  destruct (Nat.ltb 6 _); [|reflexivity].
  destruct (fields_of _) as [user_id row].
  destruct (keeps row); reflexivity.
Qed.

Lemma has_key_add k k' v d :
  has_key k (add_key k' v d) = has_key k d || (k' =? k).
Proof.
  unfold add_key. induction d as [|[k0 v0] d IH]; simpl.
  - now rewrite orb_false_r.
  - rewrite IH. now rewrite orb_assoc.
Qed.

Lemma get_add k k' v d :
  get k (add_key k' v d) =
  match get k d with
  | Some r => Some r
  | None => if k' =? k then Some v else None
  end.
Proof.
  unfold add_key. induction d as [|[k0 v0] d IH]; simpl.
  - reflexivity.
  - destruct (k0 =? k); [reflexivity | exact IH].
Qed.

Lemma has_key_get k d : has_key k d = match get k d with Some _ => true | None => false end.
Proof.
  induction d as [|[k0 v0] d IH]; simpl; [reflexivity|].
  destruct (k0 =? k); simpl; [reflexivity | exact IH].
Qed.

(** A line never changes an entry the dict already has. *)
Lemma process_line_get k r seen line :
  get k seen = Some r -> get k (process_line seen line) = Some r.
Proof.
  intros H. rewrite process_line_kept.
  destruct (kept_record line) as [[user_id row]|]; [|exact H].
  destruct (has_key user_id seen); [exact H|].
  rewrite get_add, H. reflexivity.
Qed.

Lemma fold_get k r lines : forall seen,
  get k seen = Some r -> get k (fold_left process_line lines seen) = Some r.
Proof.
  induction lines as [|line lines IH]; intros seen H; simpl; [exact H|].
  apply IH, process_line_get, H.
Qed.

(** Lines whose kept record has another id leave the id absent. *)
Lemma fold_get_none k lines : forall seen,
  get k seen = None ->
  (forall line, In line lines -> forall r, kept_record line <> Some (k, r)) ->
  get k (fold_left process_line lines seen) = None.
Proof.
  induction lines as [|line lines IH]; intros seen H Hno; simpl; [exact H|].
  apply IH.
  - rewrite process_line_kept.
    destruct (kept_record line) as [[user_id row]|] eqn:E; [|exact H].
    destruct (has_key user_id seen); [exact H|].
    rewrite get_add, H.
    destruct (user_id =? k) eqn:Ek; [|reflexivity].
    apply String.eqb_eq in Ek. subst user_id.
    exfalso. apply (Hno line (or_introl eq_refl) row). exact E.
  - intros l Hl. apply Hno. right. exact Hl.
Qed.

Lemma filter_filter {A} (p q : A -> bool) l :
  filter p (filter q l) = filter (fun x => q x && p x) l.
Proof.
  induction l as [|x l IH]; simpl; [reflexivity|].
  destruct (q x); simpl; [destruct (p x); now rewrite IH | exact IH].
Qed.

(** The dict after the loop, for any dict before it. *)
Lemma fold_first_seen lines : forall seen,
  fold_left process_line lines seen =
  (seen ++ filter (fun kv => negb (has_key (fst kv) seen))
                  (first_seen_wins (kept_records lines)))%list.
Proof.
  induction lines as [|line lines IH]; intros seen; simpl.
  - now rewrite app_nil_r.
  - rewrite IH, process_line_kept.
    destruct (kept_record line) as [[user_id row]|]; [|reflexivity].
    simpl. destruct (has_key user_id seen) eqn:Hk; simpl.
    + f_equal. rewrite filter_filter. apply filter_ext_in.
      intros [k v] _. simpl.
      destruct (k =? user_id) eqn:E; simpl; [|reflexivity].
      apply String.eqb_eq in E. subst k. now rewrite Hk.
    + unfold add_key. rewrite <- app_assoc. simpl. do 2 f_equal.
      rewrite filter_filter. apply filter_ext_in.
      intros [k v] _. simpl. fold (add_key user_id row seen).
      rewrite has_key_add, (String.eqb_sym user_id k).
      destruct (k =? user_id), (has_key k seen); reflexivity.
Qed.

Lemma scan_first_seen lines : scan lines = first_seen_wins (kept_records lines).
Proof.
  unfold scan. rewrite fold_first_seen. simpl.
  induction (first_seen_wins (kept_records lines)) as [|kv l IH]; simpl;
    [reflexivity | now rewrite IH].
Qed.


(** **** Deduplication *)

(** Claim C2, amended: when two lines that the field count and the
    placeholder filter both let through carry the same id, the later one is
    discarded entirely (the dict is what it is without that line), the row
    kept for the id is the one of its first such line, and the dict is the
    first-seen-wins deduplication of the records let through, in first-seen
    order. *)
Theorem dedup_first_kept_wins
    (pre mid post : list string) (l1 l2 user_id : string) (r1 r2 : user_row) :
  kept_record l1 = Some (user_id, r1) ->
  kept_record l2 = Some (user_id, r2) ->
  (forall line, In line pre -> forall r, kept_record line <> Some (user_id, r)) ->
  let lines := (pre ++ l1 :: mid ++ l2 :: post)%list in
  scan lines = scan (pre ++ l1 :: mid ++ post)%list
  /\ get user_id (scan lines) = Some r1
  /\ parse_lines lines = map snd (first_seen_wins (kept_records lines)).
Proof.
  intros H1 H2 Hpre lines.
  assert (Hpre' : get user_id (fold_left process_line pre []) = None)
    by (apply fold_get_none; [reflexivity | exact Hpre]).
  assert (Hl1 : get user_id (process_line (fold_left process_line pre []) l1) = Some r1).
  { rewrite process_line_kept, H1, has_key_get, Hpre', get_add, Hpre'.
    now rewrite String.eqb_refl. }
  assert (Hmid : get user_id
            (fold_left process_line mid
               (process_line (fold_left process_line pre []) l1)) = Some r1)
    by (apply fold_get, Hl1).
  assert (Hsame : scan lines = scan (pre ++ l1 :: mid ++ post)%list).
  { unfold scan, lines.
    rewrite !fold_left_app. simpl. rewrite !fold_left_app. simpl.
    f_equal. rewrite process_line_kept, H2, has_key_get, Hmid. reflexivity. }
  split; [exact Hsame|]. split.
  - rewrite Hsame. unfold scan.
    rewrite fold_left_app. simpl. rewrite fold_left_app.
    apply fold_get, Hmid.
  - unfold parse_lines, values. now rewrite scan_first_seen.
Qed.

Lemma dedup_first_kept_wins_witness :
  let l1 := "User 7, Bob, 4821, x,x,0,0" in
  let l2 := "User 7, Eve, 99, x,x,0,1" in
  let lines := ["Users"; l1; "User 8, Al, 1, x,x,1,0"; l2; "end"] in
  scan lines = scan ["Users"; l1; "User 8, Al, 1, x,x,1,0"; "end"]
  /\ get "7" (scan lines) = Some (mkRow "Bob" "4821" "None")
  /\ parse_lines lines = map snd (first_seen_wins (kept_records lines)).
Proof.
  apply (dedup_first_kept_wins ["Users"] ["User 8, Al, 1, x,x,1,0"] ["end"]
           "User 7, Bob, 4821, x,x,0,0" "User 7, Eve, 99, x,x,0,1" "7"
           (mkRow "Bob" "4821" "None") (mkRow "Eve" "99" "A2")).
  - reflexivity.
  - reflexivity.
  - intros line [<-|[]] r H. vm_compute in H. discriminate H.
Defined.

(** Claim C2 as stated fails: the first line with id 7 is an unprovisioned
    placeholder, so the later line with the same id is the one that
    survives. *)
Lemma later_occurrence_can_survive :
  ~ (forall l1 l2 user_id r1 r2,
        candidate l1 = Some (user_id, r1) ->
        candidate l2 = Some (user_id, r2) ->
        parse_lines [l1; l2] = [r1]).
Proof.
  intro H.
  specialize (H "User 7, User 7, 0, x,x,0,0" "User 7, Bob, 4821, x,x,0,0" "7"
                (mkRow "User 7" "0" "None") (mkRow "Bob" "4821" "None")
                eq_refl eq_refl).
  vm_compute in H. discriminate H.
Qed.

(** **** The placeholder filter *)

Lemma has_passcode_false (p : string) :
  has_passcode p = false <-> p = EmptyString \/ p = "0".
Proof.
  unfold has_passcode. destruct p as [|c r]; cbn [truthy andb].
  - split; auto.
  - rewrite negb_false_iff, String.eqb_eq. split; [auto|].
    intros [H|H]; [discriminate H | exact H].
Qed.

Lemma add_key_neq k v d : add_key k v d <> d.
Proof.
  unfold add_key. intro H. apply (f_equal (@List.length _)) in H.
  rewrite length_app in H. simpl in H. lia.
Qed.

Lemma values_add k v d : values (add_key k v d) = (values d ++ [v])%list.
Proof. unfold values, add_key. now rewrite map_app. Qed.

Lemma scan_snoc pre line : scan (pre ++ [line])%list = process_line (scan pre) line.
Proof. unfold scan. now rewrite fold_left_app. Qed.

(** Claim C3, amended: a candidate record whose name is the placeholder
    pattern passes the filter exactly when its passcode is neither empty
    nor 0; its line leaves the output unchanged exactly when the passcode
    is empty or 0 or the id was already recorded from an earlier line, and
    otherwise adds the row at the end of the output. *)
Theorem placeholder_dropped_iff
    (pre : list string) (line user_id : string) (row : user_row) :
  candidate line = Some (user_id, row) ->
  is_user_star (name row) = true ->
  (keeps row = false <-> passcode row = EmptyString \/ passcode row = "0")
  /\ (parse_lines (pre ++ [line]) = parse_lines pre
      <-> passcode row = EmptyString \/ passcode row = "0"
          \/ has_key user_id (scan pre) = true)
  /\ (parse_lines (pre ++ [line]) <> parse_lines pre ->
      parse_lines (pre ++ [line]) = (parse_lines pre ++ [row])%list).
Proof.
  intros Hc Hstar.
  assert (Hk : keeps row = false <-> passcode row = EmptyString \/ passcode row = "0").
  { unfold keeps. rewrite Hstar. simpl. apply has_passcode_false. }
  assert (Hstep : parse_lines (pre ++ [line]) =
                  if keeps row && negb (has_key user_id (scan pre))
                  then (parse_lines pre ++ [row])%list else parse_lines pre).
  { unfold parse_lines. rewrite scan_snoc, process_line_kept.
    unfold kept_record. rewrite Hc.
    destruct (keeps row); simpl; [|reflexivity].
    destruct (has_key user_id (scan pre)); simpl; [reflexivity|].
    apply values_add. }
  split; [exact Hk|]. split.
  - rewrite Hstep. destruct (keeps row) eqn:E; simpl.
    + destruct (has_key user_id (scan pre)); simpl.
      * split; auto.
      * split.
        -- intro H. exfalso. apply (f_equal (@List.length _)) in H.
           rewrite length_app in H. simpl in H. lia.
        -- intros [H|[H|H]]; try discriminate H;
             (assert (F : true = false) by (apply Hk; auto); discriminate F).
    + split; [intros _|reflexivity].
      destruct (proj1 Hk eq_refl); auto.
  - rewrite Hstep. destruct (keeps row && negb (has_key user_id (scan pre)));
      [reflexivity | intro H; now elim H].
Qed.

Lemma placeholder_dropped_iff_witness :
  let pre := ["User 3, Al, 55, x,x,0,0"] in
  let line := "User 7, User 7, 4821, x,x,0,0" in
  let row := mkRow "User 7" "4821" "None" in
  (keeps row = false <-> passcode row = EmptyString \/ passcode row = "0")
  /\ (parse_lines (pre ++ [line]) = parse_lines pre
      <-> passcode row = EmptyString \/ passcode row = "0"
          \/ has_key "7" (scan pre) = true)
  /\ (parse_lines (pre ++ [line]) <> parse_lines pre ->
      parse_lines (pre ++ [line]) = (parse_lines pre ++ [row])%list).
Proof.
  apply (placeholder_dropped_iff ["User 3, Al, 55, x,x,0,0"]
           "User 7, User 7, 4821, x,x,0,0" "7" (mkRow "User 7" "4821" "None"));
    reflexivity.
Defined.

(** Claim C3 as stated fails: the placeholder line has a real passcode and
    is dropped all the same, its id being already recorded. *)
Lemma placeholder_with_passcode_dropped :
  ~ (forall pre line user_id row,
        candidate line = Some (user_id, row) ->
        is_user_star (name row) = true ->
        (parse_lines (pre ++ [line]) = parse_lines pre
         <-> passcode row = EmptyString \/ passcode row = "0")).
Proof.
  intro H.
  specialize (H ["User 7, Bob, 1, x,x,0,0"] "User 7, User 7, 4821, x,x,0,0" "7"
                (mkRow "User 7" "4821" "None") eq_refl eq_refl).
  destruct (proj1 H eq_refl) as [E|E]; discriminate E.
Qed.

(** The two lines of the specification, alone in a file. *)
Example placeholder_without_passcode_excluded :
  parse_lines ["User 7, User 7, 0, x,x,0,0"] = [].
Proof. reflexivity. Qed.

Example placeholder_with_passcode_included :
  parse_lines ["User 7, User 7, 4821, x,x,0,0"] = [mkRow "User 7" "4821" "None"].
Proof. reflexivity. Qed.


(** **** The authority level *)

Lemma flag_set_true (val : string) :
  flag_set val = true <-> val <> "0" /\ lower val <> "no".
Proof.
  unfold flag_set.
  rewrite andb_true_iff, !negb_true_iff, !String.eqb_neq. reflexivity.
Qed.

Lemma flag_set_false (val : string) :
  flag_set val = false <-> ~ (val <> "0" /\ lower val <> "no").
Proof.
  rewrite <- flag_set_true. destruct (flag_set val); split; intro H;
    try discriminate H; try reflexivity; try (intro F; discriminate F).
  now elim H.
Qed.

Lemma lower_char_n (c : ascii) :
  lower_char c = "n"%char <-> c = "n"%char \/ c = "N"%char.
Proof.
  split.
  - destruct c as [[] [] [] [] [] [] [] []]; vm_compute; intro H;
      try discriminate H; auto.
  - intros [->| ->]; reflexivity.
Qed.

Lemma lower_char_o (c : ascii) :
  lower_char c = "o"%char <-> c = "o"%char \/ c = "O"%char.
Proof.
  split.
  - destruct c as [[] [] [] [] [] [] [] []]; vm_compute; intro H;
      try discriminate H; auto.
  - intros [->| ->]; reflexivity.
Qed.

(** The values [val.lower() == "no"] holds for. *)
Lemma lower_no (val : string) :
  lower val = "no" <-> In val ["no"; "No"; "nO"; "NO"].
Proof.
  split.
  - destruct val as [|c1 [|c2 [|c3 r]]]; simpl; intro H; try discriminate H.
    injection H as H1 H2.
    apply lower_char_n in H1. apply lower_char_o in H2.
    destruct H1 as [-> | ->], H2 as [-> | ->]; auto.
  - simpl. intros [<-|[<-|[<-|[<-|[]]]]]; reflexivity.
Qed.

Lemma first_flag_found (auth_levels : list string) :
  forall idx k val,
    nth_error auth_levels k = Some val ->
    flag_set val = true ->
    (forall j w, j < k -> nth_error auth_levels j = Some w -> flag_set w = false) ->
    first_flag idx auth_levels = Some ("A" ++ str_of_nat (idx + k)).
Proof.
  induction auth_levels as [|v more IH]; intros idx k val Hk Hset Hbefore.
  - destruct k; discriminate Hk.
  - destruct k as [|k]; simpl in *.
    + injection Hk as ->. rewrite Hset. now rewrite Nat.add_0_r.
    + rewrite (Hbefore 0 v (Nat.lt_0_succ k) eq_refl).
      rewrite (IH (S idx) k val Hk Hset).
      * now rewrite Nat.add_succ_r.
      * intros j w Hj Hw. apply (Hbefore (S j) w); [lia | exact Hw].
Qed.

Lemma first_flag_none (auth_levels : list string) :
  forall idx,
    (forall j w, nth_error auth_levels j = Some w -> flag_set w = false) ->
    first_flag idx auth_levels = None.
Proof.
  induction auth_levels as [|v more IH]; intros idx H; simpl; [reflexivity|].
  rewrite (H 0 v eq_refl). apply IH.
  intros j w Hw. apply (H (S j) w Hw).
Qed.

Lemma first_flag_range (auth_levels : list string) :
  forall idx a,
    first_flag idx auth_levels = Some a ->
    exists k, k < List.length auth_levels /\ a = "A" ++ str_of_nat (idx + k).
Proof.
  induction auth_levels as [|v more IH]; intros idx a H; simpl in H.
  - discriminate H.
  - destruct (flag_set v).
    + injection H as <-. exists 0. simpl. rewrite Nat.add_0_r. split; [lia | reflexivity].
    + destruct (IH _ _ H) as (k & Hk & ->). exists (S k). simpl.
      rewrite Nat.add_succ_r. split; [lia | reflexivity].
Qed.

Lemma auth_columns_nth (parts : list string) (k : nat) :
  nth_error (auth_columns parts) k =
  if Nat.ltb k 8 then nth_error parts (5 + k) else None.
Proof.
  unfold auth_columns. rewrite nth_error_firstn, nth_error_skipn. reflexivity.
Qed.

Lemma candidate_auth (line user_id : string) (row : user_row) :
  candidate line = Some (user_id, row) -> auth row = auth_level (parts_of line).
Proof.
  unfold candidate, parts_of.
  destruct (startswith "User " (clean_line line)); [|discriminate].
  destruct (Nat.ltb 6 _); [|discriminate].
  intro H. injection H as _ <-. reflexivity.
Qed.

(** Claim C4: for a candidate record (a line with more than 6 fields), the
    authority level is A[i] for the smallest [i] from 1 to 8 whose field
    [4 + i] is neither 0 nor a case-insensitive no, and None when there is
    no such [i]. *)
Theorem authority_is_first_set_column (line user_id : string) (row : user_row) :
  candidate line = Some (user_id, row) ->
  let parts := parts_of line in
  (forall i, 1 <= i <= 8 ->
     flag_at parts i ->
     (forall j, 1 <= j < i -> ~ flag_at parts j) ->
     auth row = "A" ++ str_of_nat i)
  /\ ((forall i, 1 <= i <= 8 -> ~ flag_at parts i) -> auth row = "None").
Proof.
  intros Hc parts. rewrite (candidate_auth _ _ _ Hc). fold parts.
  unfold auth_level. split.
  - intros i Hi (val & Hval & Hset) Hmin.
    rewrite (first_flag_found (auth_columns parts) 1 (i - 1) val).
    + replace (1 + (i - 1)) with i by lia. reflexivity.
    + rewrite auth_columns_nth.
      replace (Nat.ltb (i - 1) 8) with true by (symmetry; apply Nat.ltb_lt; lia).
      replace (5 + (i - 1)) with (4 + i) by lia. exact Hval.
    + apply flag_set_true. exact Hset.
    + intros j w Hj Hw. rewrite auth_columns_nth in Hw.
      destruct (Nat.ltb j 8); [|discriminate Hw].
      apply flag_set_false. intro Hw'.
      apply (Hmin (S j)); [lia|]. exists w. split; [exact Hw | exact Hw'].
  - intros Hnone. rewrite first_flag_none; [reflexivity|].
    intros j w Hw. rewrite auth_columns_nth in Hw.
    destruct (Nat.ltb j 8) eqn:Hj; [|discriminate Hw].
    apply Nat.ltb_lt in Hj.
    apply flag_set_false. intro Hw'.
    apply (Hnone (S j)); [lia|]. exists w. split; [exact Hw | exact Hw'].
Qed.

(** The flags 0, no, 0, 1, 0, 0, 0, 0 of the specification give A4. *)
Lemma authority_is_first_set_column_witness :
  let line := "User 1, Al, 1, x,x,0,no,0,1,0,0,0,0" in
  candidate line = Some ("1", mkRow "Al" "1" "A4")
  /\ auth (mkRow "Al" "1" "A4") = "A" ++ str_of_nat 4.
Proof.
  split; [reflexivity|].
  apply (proj1 (authority_is_first_set_column
                  "User 1, Al, 1, x,x,0,no,0,1,0,0,0,0" "1"
                  (mkRow "Al" "1" "A4") eq_refl) 4).
  - lia.
  - exists "1". repeat split; discriminate.
  - intros j Hj (val & Hval & H0 & Hno).
    assert (Hcases : j = 1 \/ j = 2 \/ j = 3) by lia.
    destruct Hcases as [->|[->| ->]]; vm_compute in Hval;
      injection Hval as <-; first [now apply H0 | now apply Hno].
Defined.

(** **** The end-to-end line *)

Lemma candidate_parts (line : string) :
  candidate line =
  if startswith "User " (clean_line line) then
    if Nat.ltb 6 (List.length (parts_of line))
    then Some (fields_of (parts_of line)) else None
  else None.
Proof. reflexivity. Qed.

(** Claim C5, amended: the line gives exactly one record, with passcode
    4821 and level A3, whose name is [J ohn Smith]: the first pattern
    joins [o hn] and [m ith], and neither pattern joins the capital J to
    the three letters after it. *)
Theorem end_to_end_line :
  let line := "User 0, J o hn  Sm ith, 4821, x,x,0,0,1,0,0,0,0,0" in
  parts_of line = ["User 0"; "J o hn  Sm ith"; "4821"; "x"; "x";
                   "0"; "0"; "1"; "0"; "0"; "0"; "0"; "0"]
  /\ Re.sub MID_WORD BOTH_GROUPS "J o hn  Sm ith" = "J ohn  Smith"
  /\ Re.sub SHORT_ENDING BOTH_GROUPS "J ohn  Smith" = "J ohn  Smith"
  /\ candidate line = Some ("0", mkRow "J ohn Smith" "4821" "A3")
  /\ parse_text line = [mkRow "J ohn Smith" "4821" "A3"].
Proof.
  intro line.
  assert (Hparts : parts_of line =
                   ["User 0"; "J o hn  Sm ith"; "4821"; "x"; "x";
                    "0"; "0"; "1"; "0"; "0"; "0"; "0"; "0"])
    by (vm_compute; reflexivity).
  assert (Hfirst : Re.sub MID_WORD BOTH_GROUPS "J o hn  Sm ith" = "J ohn  Smith")
    by (vm_compute; reflexivity).
  assert (Hsecond : Re.sub SHORT_ENDING BOTH_GROUPS "J ohn  Smith" = "J ohn  Smith")
    by (vm_compute; reflexivity).
  assert (Hname : repair_name "J o hn  Sm ith" = "J ohn Smith").
  { unfold repair_name. rewrite Hfirst, Hsecond. vm_compute. reflexivity. }
  assert (Hcand : candidate line = Some ("0", mkRow "J ohn Smith" "4821" "A3")).
  { rewrite candidate_parts, Hparts.
    replace (startswith "User " (clean_line line)) with true
      by (vm_compute; reflexivity).
    cbn [List.length Nat.ltb Nat.leb]. unfold fields_of. cbn [nth].
    rewrite Hname. vm_compute. reflexivity. }
  split; [exact Hparts|]. split; [exact Hfirst|].
  split; [exact Hsecond|]. split; [exact Hcand|].
  unfold parse_text, values, scan.
  replace (readlines line) with [line] by (vm_compute; reflexivity).
  cbn [fold_left]. rewrite process_line_kept.
  unfold kept_record. rewrite Hcand. vm_compute. reflexivity.
Qed.

(** Claim C5 as stated fails: the name is not [John Smith]. *)
Lemma end_to_end_name_is_not_John_Smith :
  parse_text "User 0, J o hn  Sm ith, 4821, x,x,0,0,1,0,0,0,0,0"
  <> [mkRow "John Smith" "4821" "A3"].
Proof. vm_compute. intro H. discriminate H. Qed.

(** **** The elements of the output *)

Lemma auth_level_in (parts : list string) : In (auth_level parts) AUTH_LEVELS.
Proof.
  unfold auth_level.
  destruct (first_flag 1 (auth_columns parts)) as [a|] eqn:E; [|now left].
  destruct (first_flag_range _ _ _ E) as (k & Hk & ->).
  assert (Hlen : List.length (auth_columns parts) <= 8)
    by apply firstn_le_length.
  assert (Hcases : k = 0 \/ k = 1 \/ k = 2 \/ k = 3 \/ k = 4 \/ k = 5 \/ k = 6 \/ k = 7)
    by lia.
  unfold AUTH_LEVELS.
  destruct Hcases as [->|[->|[->|[->|[->|[->|[->| ->]]]]]]]; vm_compute; tauto.
Qed.

Lemma fold_origin (lines : list string) : forall seen kv,
  In kv (fold_left process_line lines seen) ->
  In kv seen \/ exists line, In line lines /\ kept_record line = Some kv.
Proof.
  induction lines as [|line lines IH]; intros seen kv H; simpl in H; [now left|].
  destruct (IH _ _ H) as [Hin|(l & Hl & Hk)].
  - rewrite process_line_kept in Hin.
    destruct (kept_record line) as [[user_id row]|] eqn:E; [|now left].
    destruct (has_key user_id seen); [now left|].
    unfold add_key in Hin. apply in_app_or in Hin.
    destruct Hin as [Hin|[<-|[]]]; [now left|].
    right. exists line. split; [now left | exact E].
  - right. exists l. split; [now right | exact Hk].
Qed.

Lemma fold_get_in (lines : list string) : forall seen,
  (forall k v, In (k, v) seen -> get k seen = Some v) ->
  forall k v, In (k, v) (fold_left process_line lines seen) ->
              get k (fold_left process_line lines seen) = Some v.
Proof.
  induction lines as [|line lines IH]; intros seen Hseen; simpl; [exact Hseen|].
  apply IH. intros k v Hin. rewrite process_line_kept in *.
  destruct (kept_record line) as [[user_id row]|]; [|now apply Hseen].
  destruct (has_key user_id seen) eqn:Hk; [now apply Hseen|].
  rewrite get_add. unfold add_key in Hin. apply in_app_or in Hin.
  destruct Hin as [Hin|[Heq|[]]].
  - now rewrite (Hseen _ _ Hin).
  - injection Heq as -> ->. rewrite has_key_get in Hk.
    destruct (get k seen); [discriminate Hk|]. now rewrite String.eqb_refl.
Qed.

Lemma kept_is_candidate (line : string) (kv : string * user_row) :
  kept_record line = Some kv -> candidate line = Some kv.
Proof.
  unfold kept_record. destruct (candidate line) as [[user_id row]|]; [|discriminate].
  destruct (keeps row); [trivial | discriminate].
Qed.

(** Claim C6, amended: the output is the list of the rows kept, in
    first-seen order; each element is the name, the passcode and the level
    (one of None, A1 to A8) read from a candidate line of the file, and the
    id under which it was kept is its key in the dict, not a part of it. *)
Theorem output_rows_are_name_passcode_level (lines : list string) :
  parse_lines lines = map snd (first_seen_wins (kept_records lines))
  /\ List.length (parse_lines lines) = List.length (scan lines)
  /\ (forall row, In row (parse_lines lines) ->
        exists line user_id,
          In line lines /\ candidate line = Some (user_id, row)
          /\ get user_id (scan lines) = Some row
          /\ In (auth row) AUTH_LEVELS).
Proof.
  split; [|split].
  - unfold parse_lines, values. now rewrite scan_first_seen.
  - unfold parse_lines, values. apply length_map.
  - intros row Hrow. unfold parse_lines, values in Hrow.
    apply in_map_iff in Hrow. destruct Hrow as ([user_id row'] & <- & Hin).
    simpl.
    destruct (fold_origin lines [] _ Hin) as [[]|(line & Hl & Hk)].
    exists line, user_id. split; [exact Hl|].
    split; [apply kept_is_candidate, Hk|]. split.
    + apply (fold_get_in lines []); [intros k v []|exact Hin].
    + rewrite (candidate_auth _ _ _ (kept_is_candidate _ _ Hk)).
      apply auth_level_in.
Qed.

(** Claim C6 as stated fails: no reading of the returned elements gives
    back the ids they were kept under; two files that differ in the id
    only return the same list. *)
Lemma output_does_not_carry_the_id :
  ~ (exists id_of : user_row -> string,
       forall lines, map id_of (parse_lines lines) = map fst (scan lines)).
Proof.
  intros [id_of H].
  pose proof (H ["User 1, Bob, 12, x,x,0,0"]) as H1.
  pose proof (H ["User 2, Bob, 12, x,x,0,0"]) as H2.
  vm_compute in H1, H2. rewrite H1 in H2. discriminate H2.
Qed.

(** **** Failure *)

(** Claim C8: the parser raises exactly when the path does not refer to a
    readable regular file ([ValueError] when it is not a regular file);
    on a readable file it returns the list read from its text, whatever
    the lines are, and the empty list when no record is kept, which no
    raised error is equal to. *)
Theorem raises_iff_not_a_readable_file (fs : filesystem) (filepath : string) :
  ((exists e, parse_bosch_txt fs filepath = Raises e) <-> ~ readable_file fs filepath)
  /\ (isfile fs filepath = false ->
      parse_bosch_txt fs filepath = Raises (ValueError "Invalid file path"))
  /\ (forall text, fs filepath = Regular true text ->
        parse_bosch_txt fs filepath = Returns (parse_text text)
        /\ (scan (readlines text) = [] -> parse_bosch_txt fs filepath = Returns []))
  /\ (parse_bosch_txt fs filepath = Returns [] -> readable_file fs filepath).
Proof.
  unfold parse_bosch_txt, readable_file, isfile, open_read.
  destruct (fs filepath) as [| |[|] text]; simpl.
  - split; [split; [intros _ [t H]; discriminate H | intros _; now eexists]|].
    split; [reflexivity|].
    split; [intros t H; discriminate H | intro H; discriminate H].
  - split; [split; [intros _ [t H]; discriminate H | intros _; now eexists]|].
    split; [reflexivity|].
    split; [intros t H; discriminate H | intro H; discriminate H].
  - split; [split; [intros [e H]; discriminate H | intro H; elim H; now eexists]|].
    split; [intro H; discriminate H|].
    split; [|intros _; now eexists].
    intros t H. injection H as <-. split; [reflexivity|].
    intro Hnone. unfold parse_text. now rewrite Hnone.
  - split; [split; [intros _ [t H]; discriminate H | intros _; now eexists]|].
    split; [intro H; discriminate H|].
    split; [intros t H; discriminate H | intro H; discriminate H].
Qed.

(** A readable file without a record, and no file at all. *)
Example empty_result_is_not_a_failure :
  let fs := fun p => if p =? "users.txt" then Regular true "Bosch export" else Absent in
  parse_bosch_txt fs "users.txt" = Returns []
  /\ parse_bosch_txt fs "nothing.txt" = Raises (ValueError "Invalid file path").
Proof. split; reflexivity. Qed.

End ParserFacts.

(* ================================================================== *)
(** ** Facts about the renderer *)

Module RenderFacts.
Import PyStr Parser Render.

(** **** Texts *)

Lemma append_assoc (a b c : string) : (a ++ b) ++ c = a ++ b ++ c.
Proof. induction a as [|x a IH]; simpl; [reflexivity | now rewrite IH]. Qed.

Lemma append_empty_r (a : string) : a ++ EmptyString = a.
Proof. induction a as [|x a IH]; simpl; [reflexivity | now rewrite IH]. Qed.

Lemma contains_refl (s : string) : contains s s.
Proof. exists EmptyString, EmptyString. simpl. now rewrite append_empty_r. Qed.

Lemma contains_inside (pre post needle hay : string) :
  contains needle hay -> contains needle (pre ++ hay ++ post).
Proof.
  intros (a & b & ->). exists (pre ++ a), (b ++ post).
  now rewrite !append_assoc.
Qed.

Lemma contains_after (pre needle hay : string) :
  contains needle hay -> contains needle (pre ++ hay).
Proof.
  intro H. rewrite <- (append_empty_r hay). now apply contains_inside.
Qed.

Lemma contains_before (post needle hay : string) :
  contains needle hay -> contains needle (hay ++ post).
Proof. intro H. apply (contains_inside EmptyString post _ _ H). Qed.

Lemma contains_trans (a b c : string) :
  contains a b -> contains b c -> contains a c.
Proof. intros Hab (x & y & ->). now apply contains_inside. Qed.

Lemma occurs_app (c : ascii) (a b : string) :
  occurs c (a ++ b) <-> occurs c a \/ occurs c b.
Proof.
  induction a as [|x a IH]; simpl; [tauto | rewrite IH; tauto].
Qed.

Lemma occurs_contains (c : ascii) (needle hay : string) :
  contains needle hay -> occurs c needle -> occurs c hay.
Proof.
  intros (a & b & ->) H. apply occurs_app. right. apply occurs_app. now left.
Qed.

Lemma concat_all_in (x : string) (pieces : list string) :
  In x pieces -> contains x (concat_all pieces).
Proof.
  induction pieces as [|p more IH]; simpl; [intros []|].
  intros [->|H].
  - apply contains_before, contains_refl.
  - apply contains_after, IH, H.
Qed.

(** **** [str.replace] of one character and [html.escape] *)

Lemma prefix_empty (s : string) : prefix EmptyString s = true.
Proof. destruct s; reflexivity. Qed.

Lemma replace_one_char (c : ascii) (new s : string) :
  replace (String c EmptyString) new s =
  expand_chars (fun x => if Ascii.eqb x c then new else String x EmptyString) s.
Proof.
  unfold replace. induction s as [|x s IH]; [reflexivity|].
  cbn [replace_from expand_chars prefix String.length Nat.sub].
  destruct (ascii_dec c x) as [->|Hne].
  - rewrite prefix_empty, Ascii.eqb_refl, IH. reflexivity.
  - replace (Ascii.eqb x c) with false
      by (symmetry; apply Ascii.eqb_neq; congruence).
    rewrite IH. reflexivity.
Qed.

Lemma expand_chars_app (f : ascii -> string) (a b : string) :
  expand_chars f (a ++ b) = expand_chars f a ++ expand_chars f b.
Proof.
  induction a as [|x a IH]; simpl; [reflexivity|].
  now rewrite IH, append_assoc.
Qed.

Lemma expand_chars_twice (f g : ascii -> string) (s : string) :
  expand_chars f (expand_chars g s) = expand_chars (fun c => expand_chars f (g c)) s.
Proof.
  induction s as [|x s IH]; simpl; [reflexivity|].
  now rewrite expand_chars_app, IH.
Qed.

Lemma expand_chars_ext (f g : ascii -> string) :
  (forall c, f c = g c) -> forall s, expand_chars f s = expand_chars g s.
Proof.
  intros H s. induction s as [|x s IH]; simpl; [reflexivity|].
  now rewrite H, IH.
Qed.

(** The five replacements of [html.escape], one after the other, are one
    replacement of every character by its reference. *)
Lemma html_escape_chars (s : string) : html_escape s = expand_chars escape_char s.
Proof.
  unfold html_escape, dq.
  rewrite !replace_one_char, !expand_chars_twice.
  apply expand_chars_ext.
  intros [[] [] [] [] [] [] [] []]; reflexivity.
Qed.

Lemma html_escape_app (a b : string) :
  html_escape (a ++ b) = html_escape a ++ html_escape b.
Proof. rewrite !html_escape_chars. apply expand_chars_app. Qed.

Lemma escape_char_cases (c : ascii) :
  (is_markup c = false /\ escape_char c = String c EmptyString)
  \/ In (escape_char c) ENTITIES.
Proof.
  unfold is_markup, escape_char, ENTITIES.
  destruct (Ascii.eqb c "&"); [right; simpl; tauto|].
  destruct (Ascii.eqb c "<"); [right; simpl; tauto|].
  destruct (Ascii.eqb c ">"); [right; simpl; tauto|].
  destruct (Ascii.eqb c "034"); [right; simpl; tauto|].
  destruct (Ascii.eqb c "'"); [right; simpl; tauto|].
  left. split; reflexivity.
Qed.

Lemma html_escape_inert (s : string) : inert (html_escape s).
Proof.
  rewrite html_escape_chars. induction s as [|c s IH]; simpl.
  - constructor.
  - destruct (escape_char_cases c) as [[Hm ->]|Hin].
    + simpl. now constructor.
    + now constructor.
Qed.

(** The characters of an inert text that could open or close a tag or an
    attribute value are none. *)
Lemma inert_no_markup (s : string) :
  inert s ->
  forall c, occurs c s ->
    c <> "<"%char /\ c <> ">"%char /\ c <> "034"%char /\ c <> "'"%char.
Proof.
  induction 1 as [|d s Hd _ IH|e s He _ IH]; intros c Hc.
  - destruct Hc.
  - destruct Hc as [->|Hc]; [|now apply IH].
    unfold is_markup in Hd.
    repeat split; intros ->; discriminate Hd.
  - apply occurs_app in Hc. destruct Hc as [Hc|Hc]; [|now apply IH].
    unfold ENTITIES in He. simpl in He.
    repeat (destruct He as [<-|He];
            [simpl in Hc;
             repeat (destruct Hc as [->|Hc];
                     [repeat split; discriminate|]); destruct Hc|]).
    destruct He.
Qed.

(** In an inert text an ampersand opens one of the five references. *)
Lemma inert_ampersand (r : string) :
  inert (String "&" r) -> exists e rest, In e ENTITIES /\ String "&" r = e ++ rest.
Proof.
  intro H. remember (String "&" r) as t eqn:Et. revert r Et.
  induction H as [|d s Hd _ _|e s He Hs IH]; intros r Et.
  - discriminate Et.
  - injection Et as -> ->. discriminate Hd.
  - destruct e as [|x e'].
    + simpl in Et. destruct (IH r Et) as (e & rest & He' & ->).
      exists e, rest. split; [exact He' | reflexivity].
    + exists (String x e'), s. split; [exact He | now rewrite Et].
Qed.


(** **** The page around its interpolations *)

Lemma table_rows_from (data : list user_row) : forall acc,
  fold_left (fun table_rows row => table_rows ++ render_row row) data acc
  = acc ++ concat_all (map render_row data).
Proof.
  induction data as [|row data IH]; intro acc; simpl.
  - now rewrite append_empty_r.
  - now rewrite IH, append_assoc.
Qed.

Lemma table_rows_concat (data : list user_row) :
  table_rows_of data = concat_all (map render_row data).
Proof. unfold table_rows_of. now rewrite table_rows_from. Qed.

Lemma render_row_cells (row : user_row) :
  render_row row =
  row_around (html_escape (name row)) (html_escape (passcode row)) (auth row).
Proof. reflexivity. Qed.

Lemma page_around_rows now data password logo_data :
  generate_html now data password logo_data =
  page_before_rows now (List.length data) logo_data
  ++ concat_all (map render_row data) ++ page_after_rows password.
Proof.
  unfold generate_html, page_before_rows, page_after_rows.
  rewrite table_rows_concat, !append_assoc. reflexivity.
Qed.

Lemma page_around_date now data password logo_data :
  generate_html now data password logo_data =
  page_before_date logo_data ++ strftime_b_d_Y now ++ page_after_date data password.
Proof.
  unfold generate_html, page_before_date, page_after_date.
  rewrite !append_assoc. reflexivity.
Qed.

Lemma page_around_password now data password logo_data :
  generate_html now data password logo_data =
  page_before_password now data logo_data
  ++ password_literal password ++ PAGE_SCRIPT.
Proof.
  unfold generate_html, page_before_password, page_before_rows.
  rewrite !append_assoc. reflexivity.
Qed.

(** **** Escaping of the user's text *)

(** Claim C1: the page is its frame around one row per record, and a row
    holds the name and the passcode of its record as [html.escape] returns
    them and in no other form; the escaped texts are inert (references and
    characters without a meaning in markup, so no angle bracket and no
    quote), and a name with [<script>] in it shows in the page as
    [&lt;script&gt;], its escaped text having no [<script>] in it. *)
Theorem user_text_is_escaped
    (now : datetime) (data : list user_row) (password : string)
    (logo_data : option (string * string)) (row : user_row) :
  In row data ->
  let page := generate_html now data password logo_data in
  page = page_before_rows now (List.length data) logo_data
         ++ concat_all
              (map (fun r => row_around (html_escape (name r))
                                        (html_escape (passcode r)) (auth r)) data)
         ++ page_after_rows password
  /\ contains (row_around (html_escape (name row)) (html_escape (passcode row))
                          (auth row)) page
  /\ inert (html_escape (name row))
  /\ inert (html_escape (passcode row))
  /\ (forall c, occurs c (html_escape (name row))
                \/ occurs c (html_escape (passcode row)) ->
        c <> "<"%char /\ c <> ">"%char /\ c <> "034"%char /\ c <> "'"%char)
  /\ (contains "<script>" (name row) ->
        contains "&lt;script&gt;" page
        /\ ~ contains "<script>" (html_escape (name row))).
Proof.
  intros Hin page.
  assert (Hpage : page = page_before_rows now (List.length data) logo_data
                         ++ concat_all (map render_row data)
                         ++ page_after_rows password)
    by apply page_around_rows.
  assert (Hrow : contains (render_row row) page).
  { rewrite Hpage. apply contains_inside, concat_all_in, in_map, Hin. }
  split; [exact Hpage|]. split; [exact Hrow|].
  split; [apply html_escape_inert|]. split; [apply html_escape_inert|].
  split.
  - intros c [Hc|Hc]; exact (inert_no_markup _ (html_escape_inert _) c Hc).
  - intros (a & b & Hname). split.
    + apply (contains_trans _ (html_escape (name row))).
      * rewrite Hname, !html_escape_app.
        exists (html_escape a), (html_escape b). reflexivity.
      * apply (contains_trans _ (render_row row)); [|exact Hrow].
        rewrite render_row_cells. unfold row_around.
        apply (contains_inside ROW_OPEN), contains_refl.
    + intro Hc.
      destruct (inert_no_markup _ (html_escape_inert (name row)) "<"%char) as [F _].
      * apply (occurs_contains _ _ _ Hc). now left.
      * now apply F.
Qed.

Lemma user_text_is_escaped_witness :
  let row := mkRow "<script>alert(1)</script>" "12'34" "A2" in
  let page := generate_html (mkDatetime 2026 11 4 9 30 0) [row] "secret" None in
  page = page_before_rows (mkDatetime 2026 11 4 9 30 0) 1 None
         ++ concat_all
              (map (fun r => row_around (html_escape (name r))
                                        (html_escape (passcode r)) (auth r)) [row])
         ++ page_after_rows "secret"
  /\ contains (row_around (html_escape (name row)) (html_escape (passcode row))
                          (auth row)) page
  /\ inert (html_escape (name row))
  /\ inert (html_escape (passcode row))
  /\ (forall c, occurs c (html_escape (name row))
                \/ occurs c (html_escape (passcode row)) ->
        c <> "<"%char /\ c <> ">"%char /\ c <> "034"%char /\ c <> "'"%char)
  /\ (contains "<script>" (name row) ->
        contains "&lt;script&gt;" page
        /\ ~ contains "<script>" (html_escape (name row))).
Proof.
  apply (user_text_is_escaped (mkDatetime 2026 11 4 9 30 0)
           [mkRow "<script>alert(1)</script>" "12'34" "A2"] "secret" None
           (mkRow "<script>alert(1)</script>" "12'34" "A2")).
  simpl. left. reflexivity.
Defined.

(** The escaped cells of that row. *)
Example escaped_script_name :
  html_escape "<script>alert(1)</script>" = "&lt;script&gt;alert(1)&lt;/script&gt;"
  /\ html_escape "12'34" = "12&#x27;34".
Proof. split; reflexivity. Qed.

(** **** The clock *)

(** Claim C9: the page is a text that does not depend on the clock, then
    the date of the report, then a text that does not depend on the clock
    either; so two runs on the same inputs differ in the date at most, and
    not at all when the clock reads the same. *)
Theorem only_the_date_depends_on_the_clock
    (data : list user_row) (password : string)
    (logo_data : option (string * string)) (now1 now2 : datetime) :
  generate_html now1 data password logo_data
  = page_before_date logo_data ++ strftime_b_d_Y now1
    ++ page_after_date data password
  /\ generate_html now2 data password logo_data
     = page_before_date logo_data ++ strftime_b_d_Y now2
       ++ page_after_date data password
  /\ (strftime_b_d_Y now1 = strftime_b_d_Y now2 ->
      generate_html now1 data password logo_data
      = generate_html now2 data password logo_data).
Proof.
  split; [apply page_around_date|]. split; [apply page_around_date|].
  intro H. rewrite !page_around_date, H. reflexivity.
Qed.

(** **** The gate secret *)

Lemma json_escape_app (a b : string) :
  json_escape (a ++ b) = json_escape a ++ json_escape b.
Proof.
  induction a as [|x a IH]; simpl; [reflexivity|].
  now rewrite IH, append_assoc.
Qed.

Lemma json_plain_char (c : ascii) :
  json_plain c = true -> json_escape_char c = String c EmptyString.
Proof.
  destruct c as [[] [] [] [] [] [] [] []]; vm_compute; intro H;
    first [reflexivity | discriminate H].
Qed.

Lemma json_escape_plain (s : string) :
  forall_chars json_plain s = true -> json_escape s = s.
Proof.
  induction s as [|c s IH]; simpl; [reflexivity|].
  intro H. apply andb_true_iff in H. destruct H as [Hc Hs].
  now rewrite (json_plain_char c Hc), IH.
Qed.

Lemma password_assignment :
  exists before after,
    PAGE_BEFORE_PASSWORD = before ++ "let PASSWORD = "
    /\ PAGE_SCRIPT = ";" ++ after.
Proof.
  exists (slice_to 120 PAGE_BEFORE_PASSWORD), (slice_from 1 PAGE_SCRIPT).
  split; vm_compute; reflexivity.
Qed.

(** Claim C10: a non-empty secret is in the page as the text
    [json.dumps] makes of it, after [let PASSWORD = ] and before the
    semicolon, with no HTML escaping: printable ASCII other than the
    double quote and the backslash is copied as it is, so a secret with
    [</script>] in it puts [</script>] in the page, where [html.escape]
    would have left none. *)
Theorem secret_is_embedded_as_json
    (now : datetime) (data : list user_row) (password : string)
    (logo_data : option (string * string)) :
  password <> EmptyString ->
  let page := generate_html now data password logo_data in
  page = page_before_password now data logo_data
         ++ json_dumps password ++ PAGE_SCRIPT
  /\ contains ("let PASSWORD = " ++ json_dumps password ++ ";") page
  /\ json_dumps password = dq ++ json_escape password ++ dq
  /\ (forall_chars json_plain password = true ->
        json_dumps password = dq ++ password ++ dq)
  /\ (contains "</script>" password ->
        contains "</script>" (json_dumps password)
        /\ ~ contains "</script>" (html_escape password)).
Proof.
  intros Hne page.
  assert (Hlit : password_literal password = json_dumps password).
  { unfold password_literal. destruct password; [now elim Hne | reflexivity]. }
  assert (Hpage : page = page_before_password now data logo_data
                         ++ json_dumps password ++ PAGE_SCRIPT).
  { unfold page. now rewrite page_around_password, Hlit. }
  split; [exact Hpage|]. split; [|split; [reflexivity|split]].
  - rewrite Hpage. unfold page_before_password.
    destruct password_assignment as (before & after & -> & ->).
    exists (page_before_rows now (List.length data) logo_data
            ++ table_rows_of data ++ before), after.
    rewrite !append_assoc. reflexivity.
  - intro H. unfold json_dumps. now rewrite (json_escape_plain _ H).
  - intros (a & b & ->). split.
    + unfold json_dumps. rewrite !json_escape_app.
      exists (dq ++ json_escape a), (json_escape b ++ dq).
      rewrite !append_assoc. reflexivity.
    + intro Hc.
      destruct (inert_no_markup _ (html_escape_inert (a ++ "</script>" ++ b))
                  "<"%char) as [F _].
      * apply (occurs_contains _ _ _ Hc). now left.
      * now apply F.
Qed.

Lemma secret_is_embedded_as_json_witness :
  let password := "</script><script>alert(1)//" in
  let page := generate_html (mkDatetime 2026 11 4 9 30 0) [] password None in
  page = page_before_password (mkDatetime 2026 11 4 9 30 0) [] None
         ++ json_dumps password ++ PAGE_SCRIPT
  /\ contains ("let PASSWORD = " ++ json_dumps password ++ ";") page
  /\ json_dumps password = dq ++ json_escape password ++ dq
  /\ (forall_chars json_plain password = true ->
        json_dumps password = dq ++ password ++ dq)
  /\ (contains "</script>" password ->
        contains "</script>" (json_dumps password)
        /\ ~ contains "</script>" (html_escape password)).
Proof.
  apply (secret_is_embedded_as_json (mkDatetime 2026 11 4 9 30 0) []
           "</script><script>alert(1)//" None).
  discriminate.
Defined.

(** The value of [PASSWORD] for that secret. *)
Example secret_with_closing_tag :
  password_literal "</script><script>alert(1)//"
  = dq ++ "</script><script>alert(1)//" ++ dq.
Proof. reflexivity. Qed.

End RenderFacts.

(* ================================================================== *)
(** ** Facts about the script of the document *)

Module DocFacts.
Import PyStr Parser DocModel.

(** **** Class lists *)

Lemma cl_remove_absent (t : string) (l : list string) :
  cl_contains t l = false -> cl_remove t l = l.
Proof.
  unfold cl_contains, cl_remove. induction l as [|x l IH]; simpl; [reflexivity|].
  intro H. apply orb_false_iff in H. destruct H as [Hx Hl].
  rewrite String.eqb_sym in Hx. rewrite Hx. simpl. now rewrite IH.
Qed.

Lemma cl_remove_add (t : string) (l : list string) :
  cl_contains t l = false -> cl_remove t (cl_add t l) = l.
Proof.
  intro H. unfold cl_add. rewrite H. unfold cl_remove.
  rewrite filter_app. fold (cl_remove t l). rewrite (cl_remove_absent _ _ H).
  simpl. rewrite String.eqb_refl. simpl. apply app_nil_r.
Qed.

Lemma cl_contains_app (t : string) (l1 l2 : list string) :
  cl_contains t (l1 ++ l2) = cl_contains t l1 || cl_contains t l2.
Proof. unfold cl_contains. apply existsb_app. Qed.

Lemma cl_contains_add (t u : string) (l : list string) :
  cl_contains t (cl_add u l) = cl_contains t l || (t =? u).
Proof.
  unfold cl_add. destruct (cl_contains u l) eqn:E.
  - destruct (String.eqb_spec t u) as [->|_].
    + now rewrite E.
    + now rewrite orb_false_r.
  - rewrite cl_contains_app. simpl. now rewrite orb_false_r.
Qed.

Lemma cl_contains_remove (t u : string) (l : list string) :
  cl_contains t (cl_remove u l) = cl_contains t l && negb (t =? u).
Proof.
  unfold cl_contains, cl_remove. induction l as [|x l IH]; simpl; [reflexivity|].
  destruct (String.eqb_spec x u) as [->|Hxu]; simpl.
  - rewrite IH. destruct (String.eqb_spec t u) as [->|_]; simpl.
    + now rewrite !andb_false_r.
    + now rewrite !andb_true_r.
  - rewrite IH. destruct (String.eqb_spec t x) as [->|_]; simpl; [|reflexivity].
    destruct (String.eqb_spec x u) as [->|_]; [now elim Hxu | reflexivity].
Qed.

(** **** One row *)

(** Restoring a row just deleted gives the row back. *)
Lemma restore_after_delete (answer : bool) (r : row) :
  is_deleted r = false -> settled r ->
  deleteRow_row answer (deleteRow_row true r) = r.
Proof.
  unfold settled, is_deleted. intros Hd. rewrite Hd.
  intros (Hn & Hp & Hs & Hb & Hc).
  unfold deleteRow_row at 2. rewrite Hd.
  unfold deleteRow_row. cbn [classList].
  rewrite cl_contains_add, String.eqb_refl, orb_true_r.
  cbn [name_cell passcode_cell select_value btn_classList display classList].
  rewrite (cl_remove_add _ _ Hd), (cl_remove_add _ _ Hc).
  destruct r as [cl [ne nt] [pe pt] sv sd bt bc di]. simpl in *.
  subst. reflexivity.
Qed.

Lemma delete_is_deleted (r : row) :
  is_deleted r = false -> is_deleted (deleteRow_row true r) = true.
Proof.
  unfold is_deleted, deleteRow_row. intro H. rewrite H. cbn [classList].
  now rewrite cl_contains_add, String.eqb_refl, orb_true_r.
Qed.

(** On a row just deleted no edit has an effect. *)
Lemma edits_blocked (a : action) (i : nat) (r : row) :
  is_deleted r = false ->
  (forall answer, a <> ClickRemove i answer) ->
  effect a i (deleteRow_row true r) = deleteRow_row true r.
Proof.
  intros Hd Ha. pose proof (delete_is_deleted r Hd) as Hdel.
  unfold is_deleted in Hd.
  destruct a as [input|j answer|j text|j text|j value| |p]; simpl;
    try reflexivity; destruct (Nat.eqb_spec j i) as [->|_]; try reflexivity.
  - now elim (Ha answer).
  - unfold type_name, deleteRow_row. rewrite Hd. reflexivity.
  - unfold type_passcode, deleteRow_row. rewrite Hd. reflexivity.
  - unfold choose_auth, deleteRow_row. rewrite Hd. reflexivity.
Qed.

Lemma effect_display (a : action) (i : nat) (v : string) (r : row) :
  effect a i (set_display v r) = set_display v (effect a i r).
Proof.
  destruct r as [cl [ne nt] [pe pt] sv sd bt bc di].
  destruct a as [input|j answer|j text|j text|j value| |p]; simpl;
    try reflexivity; destruct (Nat.eqb j i); try reflexivity.
  - unfold deleteRow_row, set_display. cbn [classList].
    destruct (cl_contains "deleted" cl); [reflexivity|].
    destruct answer; reflexivity.
  - unfold type_name, set_display, markModified.
    cbn [name_cell contentEditable classList].
    destruct (ne =? "true"); [|reflexivity].
    destruct (cl_contains "deleted" cl); reflexivity.
  - unfold type_passcode, set_display, markModified.
    cbn [passcode_cell contentEditable classList].
    destruct (pe =? "true"); [|reflexivity].
    destruct (cl_contains "deleted" cl); reflexivity.
  - unfold choose_auth, set_display, markModified.
    cbn [select_disabled classList].
    destruct sd; [reflexivity|].
    destruct (cl_contains "deleted" cl); reflexivity.
Qed.

Lemma deleteRow_display (answer : bool) (v : string) (r : row) :
  deleteRow_row answer (set_display v r) = set_display v (deleteRow_row answer r).
Proof. exact (effect_display (ClickRemove 0 answer) 0 v r). Qed.

Lemma effect_same_row (a : action) (i : nat) (r1 r2 : row) :
  same_row r1 r2 -> same_row (effect a i r1) (effect a i r2).
Proof.
  unfold same_row. intro H. now rewrite <- !effect_display, H.
Qed.

Lemma set_display_twice (v w : string) (r : row) :
  set_display v (set_display w r) = set_display v r.
Proof. reflexivity. Qed.

Lemma same_row_state (r1 r2 : row) : same_row r1 r2 -> state_of r1 = state_of r2.
Proof.
  unfold same_row, set_display, state_of. intro H.
  injection H as Hcl _ _ _ _ _ _. now rewrite Hcl.
Qed.

(** **** The rows of the document *)

Lemma nth_at_row (f : row -> row) (rs : list row) : forall j i,
  nth_error (at_row j f rs) i =
  if Nat.eqb j i then option_map f (nth_error rs i) else nth_error rs i.
Proof.
  induction rs as [|r rs IH]; intros j i.
  - destruct j, i; simpl; try reflexivity; now destruct (Nat.eqb j i).
  - destruct j as [|j], i as [|i]; simpl; try reflexivity. apply IH.
Qed.

Lemma nth_show_slice (start stop : nat) (rs : list row) : forall k i r,
  nth_error rs i = Some r ->
  exists v, nth_error (show_slice start stop k rs) i = Some (set_display v r).
Proof.
  induction rs as [|x rs IH]; intros k i r H.
  - destruct i; discriminate H.
  - destruct i as [|i]; simpl in *.
    + injection H as ->. now eexists.
    + apply IH, H.
Qed.

(** After an action the row of index [i] is what the action makes of it,
    up to [style.display]. *)
Lemma step_row (d : document) (a : action) (i : nat) (r : row) :
  nth_error (rows d) i = Some r ->
  exists r', nth_error (rows (step d a)) i = Some r'
             /\ same_row r' (effect a i r).
Proof.
  intro H.
  assert (Hshow : forall start stop rs x,
            nth_error rs i = Some x ->
            exists r', nth_error (show_slice start stop 0 rs) i = Some r'
                       /\ same_row r' x).
  { intros start stop rs x Hx.
    destruct (nth_show_slice start stop rs 0 i x Hx) as [v Hv].
    exists (set_display v x). split; [exact Hv | reflexivity]. }
  assert (Hat : forall j f,
            nth_error (at_row j f (rows d)) i
            = Some (if Nat.eqb j i then f r else r)).
  { intros j f. rewrite nth_at_row, H. now destruct (Nat.eqb j i). }
  destruct a as [input|j answer|j text|j text|j value| |p]; simpl.
  - unfold checkPassword. destruct (input =? PASSWORD d).
    + simpl. apply Hshow, H.
    + exists r. split; [exact H | reflexivity].
  - apply Hshow. simpl. apply Hat.
  - exists (if Nat.eqb j i then type_name text r else r).
    split; [apply Hat | reflexivity].
  - exists (if Nat.eqb j i then type_passcode text r else r).
    split; [apply Hat | reflexivity].
  - exists (if Nat.eqb j i then choose_auth value r else r).
    split; [apply Hat | reflexivity].
  - apply Hshow. simpl. rewrite nth_error_app1; [exact H|].
    apply nth_error_Some. now rewrite H.
  - apply Hshow, H.
Qed.

Lemma run_blocked (between : list action) (i : nat) (r : row) :
  is_deleted r = false ->
  (forall a, In a between -> forall answer, a <> ClickRemove i answer) ->
  forall d x,
    nth_error (rows d) i = Some x -> same_row x (deleteRow_row true r) ->
    exists x', nth_error (rows (run d between)) i = Some x'
               /\ same_row x' (deleteRow_row true r).
Proof.
  intros Hd. induction between as [|a between IH]; intros Hb d x Hx Hsame.
  - exists x. split; assumption.
  - simpl. destruct (step_row d a i x Hx) as (x1 & Hx1 & Hs1).
    apply (IH (fun b Hin => Hb b (or_intror Hin)) (step d a) x1 Hx1).
    unfold same_row in *. rewrite Hs1.
    rewrite <- effect_display, Hsame, effect_display.
    rewrite (edits_blocked a i r Hd (Hb a (or_introl eq_refl))). reflexivity.
Qed.


(** **** What the script keeps true *)

Lemma settled_display (v : string) (r : row) : settled r -> settled (set_display v r).
Proof. intro H. exact H. Qed.

Lemma settled_markModified (r : row) : settled r -> settled (markModified r).
Proof.
  unfold markModified. destruct (cl_contains "deleted" (classList r)) eqn:E;
    [trivial|]. simpl.
  unfold settled, is_deleted. cbn [classList name_cell passcode_cell
    select_disabled btn_text btn_classList].
  rewrite cl_contains_add, E. simpl. trivial.
Qed.

Lemma settled_effect (a : action) (i : nat) (r : row) :
  settled r -> settled (effect a i r).
Proof.
  intro H.
  destruct a as [input|j answer|j text|j text|j value| |p]; simpl;
    try exact H; destruct (Nat.eqb j i); try exact H.
  - unfold deleteRow_row.
    destruct (cl_contains "deleted" (classList r)) eqn:E.
    + unfold settled, is_deleted. cbn [classList name_cell passcode_cell
        select_disabled btn_text btn_classList set_editable contentEditable].
      rewrite !cl_contains_remove, String.eqb_refl, !andb_false_r. auto.
    + destruct answer; [|exact H].
      unfold settled, is_deleted. cbn [classList name_cell passcode_cell
        select_disabled btn_text btn_classList set_editable contentEditable].
      rewrite !cl_contains_add, String.eqb_refl, !orb_true_r. auto.
  - unfold type_name.
    destruct (contentEditable (name_cell r) =? "true") eqn:E; [|exact H].
    apply settled_markModified. apply String.eqb_eq in E.
    destruct r as [cl [ne nt] [pe pt] sv sd bt bc di].
    unfold settled, is_deleted in *. simpl in *. exact H.
  - unfold type_passcode.
    destruct (contentEditable (passcode_cell r) =? "true") eqn:E; [|exact H].
    apply settled_markModified.
    destruct r as [cl [ne nt] [pe pt] sv sd bt bc di].
    unfold settled, is_deleted in *. simpl in *. exact H.
  - unfold choose_auth. destruct (select_disabled r) eqn:E; [exact H|].
    apply settled_markModified.
    destruct r as [cl [ne nt] [pe pt] sv sd bt bc di].
    unfold settled, is_deleted in *. simpl in *. subst sd. exact H.
Qed.

Lemma settled_same_row (r1 r2 : row) : same_row r1 r2 -> settled r2 -> settled r1.
Proof.
  unfold same_row, set_display, settled, is_deleted. intros H.
  injection H as -> -> -> _ -> -> ->. trivial.
Qed.

Lemma settled_rendered (u : user_row) : settled (rendered_row u).
Proof. unfold settled. repeat split. Qed.

Lemma settled_added : settled added_row.
Proof. unfold settled. repeat split. Qed.

Lemma step_length (d : document) (a : action) :
  List.length (rows (step d a)) =
  match a with
  | ClickAdd => S (List.length (rows d))
  | _ => List.length (rows d)
  end.
Proof.
  assert (Hshow : forall start stop rs k,
            List.length (show_slice start stop k rs) = List.length rs).
  { intros start stop rs. induction rs as [|x rs IH]; intro k; simpl;
      [reflexivity | now rewrite IH]. }
  assert (Hat : forall f rs j, List.length (at_row j f rs) = List.length rs).
  { intros f rs. induction rs as [|x rs IH]; intros [|j]; simpl;
      try reflexivity; now rewrite IH. }
  destruct a as [input|j answer|j text|j text|j value| |p]; simpl;
    rewrite ?Hshow, ?Hat; simpl; rewrite ?Hat; try reflexivity.
  - unfold checkPassword. destruct (input =? PASSWORD d); [|reflexivity].
    simpl. apply Hshow.
  - rewrite length_app. simpl. lia.
Qed.

(** Every row of a document stays settled, whatever the user does. *)
Lemma step_settled (d : document) (a : action) :
  (forall i r, nth_error (rows d) i = Some r -> settled r) ->
  forall i r, nth_error (rows (step d a)) i = Some r -> settled r.
Proof.
  intros Hd i r Hr.
  destruct (nth_error (rows d) i) as [x|] eqn:Hx.
  - destruct (step_row d a i x Hx) as (r' & Hr' & Hsame).
    rewrite Hr in Hr'. injection Hr' as <-.
    apply (settled_same_row _ _ Hsame), settled_effect, (Hd i x Hx).
  - apply nth_error_None in Hx.
    assert (Hlt : i < List.length (rows (step d a)))
      by (apply nth_error_Some; now rewrite Hr).
    rewrite step_length in Hlt.
    destruct a as [input|j answer|j text|j text|j value| |p]; try lia.
    assert (Hi : i = List.length (rows d)) by lia. subst i.
    simpl in Hr.
    destruct (nth_show_slice ((currentPage d - 1) * rowsPerPage)
                ((currentPage d - 1) * rowsPerPage + rowsPerPage)
                (rows d ++ [added_row]) 0 (List.length (rows d)) added_row)
      as [v Hv].
    + rewrite nth_error_app2, Nat.sub_diag; [reflexivity | lia].
    + simpl in Hv. rewrite Hr in Hv. injection Hv as ->.
      apply settled_display, settled_added.
Qed.

Lemma run_settled (acts : list action) : forall d,
  (forall i r, nth_error (rows d) i = Some r -> settled r) ->
  forall i r, nth_error (rows (run d acts)) i = Some r -> settled r.
Proof.
  induction acts as [|a acts IH]; intros d Hd; simpl; [exact Hd|].
  apply IH, step_settled, Hd.
Qed.

(** The rows of a rendered report are settled from the start, hence at
    every moment of its use. *)
Lemma rendered_document_settled
    (data : list user_row) (password : string) (acts : list action) :
  forall i r, nth_error (rows (run (loaded data password) acts)) i = Some r ->
              settled r.
Proof.
  apply run_settled. intros i r H. simpl in H.
  apply nth_error_In, in_map_iff in H. destruct H as (u & <- & _).
  apply settled_rendered.
Qed.

(** **** Delete, then restore *)

(** Claim C7: a row that is not deleted is Deleted after the remove
    action, stays so with its texts and level untouched whatever is tried
    on it, and the restore action gives back the row as it was before the
    deletion: same state (Modified for an edited row, Normal for an
    untouched one, Added for an added one), same name, passcode and level,
    same button, editable again. *)
Theorem restore_returns_to_state_before_delete
    (d : document) (i : nat) (r : row) (between : list action) (answer : bool) :
  nth_error (rows d) i = Some r ->
  is_deleted r = false ->
  settled r ->
  (forall a, In a between -> forall ans, a <> ClickRemove i ans) ->
  let deleted := step d (ClickRemove i true) in
  let later := run deleted between in
  let restored := step later (ClickRemove i answer) in
  (exists x, nth_error (rows later) i = Some x
             /\ state_of x = Deleted
             /\ textContent (name_cell x) = textContent (name_cell r)
             /\ textContent (passcode_cell x) = textContent (passcode_cell r)
             /\ select_value x = select_value r)
  /\ (exists r', nth_error (rows restored) i = Some r'
                 /\ same_row r' r
                 /\ state_of r' = state_of r
                 /\ textContent (name_cell r') = textContent (name_cell r)
                 /\ textContent (passcode_cell r') = textContent (passcode_cell r)
                 /\ select_value r' = select_value r).
Proof.
  intros Hr Hd Hs Hb deleted later restored.
  destruct (step_row d (ClickRemove i true) i r Hr) as (x0 & Hx0 & Hs0).
  simpl in Hs0. rewrite Nat.eqb_refl in Hs0.
  destruct (run_blocked between i r Hd Hb (step d (ClickRemove i true)) x0 Hx0 Hs0)
    as (x & Hx & Hsx).
  fold deleted in Hx. fold later in Hx.
  destruct (step_row later (ClickRemove i answer) i x Hx) as (r' & Hr' & Hs').
  simpl in Hs'. rewrite Nat.eqb_refl in Hs'.
  assert (Hback : same_row r' r).
  { unfold same_row in *. rewrite Hs'.
    rewrite <- deleteRow_display, Hsx, deleteRow_display.
    now rewrite (restore_after_delete answer r Hd Hs). }
  split.
  - exists x. split; [exact Hx|].
    pose proof (same_row_state _ _ Hsx) as Hstate.
    unfold same_row, set_display in Hsx. injection Hsx as _ Hn Hp Hv _ _ _.
    unfold deleteRow_row in Hn, Hp, Hv, Hstate.
    unfold is_deleted in Hd. rewrite Hd in Hn, Hp, Hv, Hstate.
    cbn [name_cell passcode_cell select_value] in Hn, Hp, Hv.
    rewrite Hn, Hp, Hv, Hstate.
    unfold state_of. cbn [classList].
    rewrite cl_contains_add, String.eqb_refl, orb_true_r. repeat split.
  - exists r'. split; [exact Hr'|]. split; [exact Hback|].
    split; [apply same_row_state, Hback|].
    unfold same_row, set_display in Hback. injection Hback as _ Hn Hp Hv _ _ _.
    now rewrite Hn, Hp, Hv.
Qed.

(** An edited row of a rendered report, deleted, poked at and restored. *)
Lemma restore_returns_to_state_before_delete_witness :
  let d := run (loaded [mkRow "Bob" "4821" "A3"] "pw")
               [Authenticate "pw"; TypeName 0 "Bobby"] in
  let r := mkDocRow ["modified"] (mkCell "true" "Bobby") (mkCell "true" "4821")
                    "A3" false "Remove" ["delete-btn"] EmptyString in
  let between := [TypeName 0 "Eve"; ChooseAuth 0 "A1"; ClickAdd; ClickPage 1] in
  let later := run (step d (ClickRemove 0 true)) between in
  let restored := step later (ClickRemove 0 false) in
  (exists x, nth_error (rows later) 0 = Some x
             /\ state_of x = Deleted
             /\ textContent (name_cell x) = textContent (name_cell r)
             /\ textContent (passcode_cell x) = textContent (passcode_cell r)
             /\ select_value x = select_value r)
  /\ (exists r', nth_error (rows restored) 0 = Some r'
                 /\ same_row r' r
                 /\ state_of r' = state_of r
                 /\ textContent (name_cell r') = textContent (name_cell r)
                 /\ textContent (passcode_cell r') = textContent (passcode_cell r)
                 /\ select_value r' = select_value r).
Proof.
  apply (restore_returns_to_state_before_delete
           (run (loaded [mkRow "Bob" "4821" "A3"] "pw")
                [Authenticate "pw"; TypeName 0 "Bobby"])
           0
           (mkDocRow ["modified"] (mkCell "true" "Bobby") (mkCell "true" "4821")
                     "A3" false "Remove" ["delete-btn"] EmptyString)
           [TypeName 0 "Eve"; ChooseAuth 0 "A1"; ClickAdd; ClickPage 1] false).
  - reflexivity.
  - reflexivity.
  - unfold settled. simpl. repeat split; reflexivity.
  - intros a [<-|[<-|[<-|[<-|[]]]]] ans; discriminate.
Defined.

(** The states of the specification, on the rows of the script. *)
Example states_of_the_rows (u : user_row) (text : string) :
  state_of (rendered_row u) = Normal
  /\ state_of (type_name text (rendered_row u)) = Modified
  /\ state_of (deleteRow_row true (type_name text (rendered_row u))) = Deleted
  /\ state_of (deleteRow_row false
                 (deleteRow_row true (type_name text (rendered_row u)))) = Modified
  /\ state_of added_row = Added
  /\ state_of (deleteRow_row true added_row) = Deleted
  /\ deleteRow_row false (deleteRow_row true added_row) = added_row.
Proof. repeat split. Qed.

End DocFacts.

(* ================================================================== *)
(** ** More facts about the parser *)

Module ParserMore.
Import PyStr Re Parser TextViews ParserFacts.

Lemma has_key_in (k : string) (d : seen_users) :
  has_key k d = true <-> In k (map fst d).
Proof.
  induction d as [|[k' v] d IH]; simpl.
  - split; [discriminate | tauto].
  - rewrite orb_true_iff, IH, String.eqb_eq. tauto.
Qed.

Lemma keys_add_distinct (k : string) (v : user_row) (d : seen_users) :
  NoDup (map fst d) -> has_key k d = false -> NoDup (map fst (add_key k v d)).
Proof.
  intros Hd Hk. unfold add_key. rewrite map_app. simpl.
  apply NoDup_app; [exact Hd | repeat constructor; intros [] |].
  intros a Ha [<-|[]]. apply has_key_in in Ha. congruence.
Qed.

Lemma fold_keys_distinct (lines : list string) : forall seen,
  NoDup (map fst seen) -> NoDup (map fst (fold_left process_line lines seen)).
Proof.
  induction lines as [|line lines IH]; intros seen H; simpl; [exact H|].
  apply IH. rewrite process_line_kept.
  destruct (kept_record line) as [[user_id row]|]; [|exact H].
  destruct (has_key user_id seen) eqn:E; [exact H|].
  now apply keys_add_distinct.
Qed.

(** Property X1: no two elements of the dict share an id, whatever the
    lines are, and the returned list has one row for each id recorded. *)
Theorem recorded_ids_are_distinct (lines : list string) :
  NoDup (map fst (scan lines))
  /\ List.length (parse_lines lines) = List.length (map fst (scan lines)).
Proof.
  split.
  - apply fold_keys_distinct. constructor.
  - unfold parse_lines, values. now rewrite !length_map.
Qed.

Lemma kept_record_keeps (line user_id : string) (row : user_row) :
  kept_record line = Some (user_id, row) -> keeps row = true.
Proof.
  unfold kept_record. destruct (candidate line) as [[k r]|]; [|discriminate].
  destruct (keeps r) eqn:E; [|discriminate].
  intro H. injection H as _ <-. exact E.
Qed.

Lemma output_origin (lines : list string) (row : user_row) :
  In row (parse_lines lines) ->
  exists line user_id, In line lines /\ kept_record line = Some (user_id, row).
Proof.
  unfold parse_lines, values. intro H. apply in_map_iff in H.
  destruct H as ([user_id r] & <- & Hin).
  destruct (fold_origin lines [] _ Hin) as [[]|(line & Hl & Hk)].
  exists line, user_id. split; assumption.
Qed.

(** Property X2: no unprovisioned placeholder is ever returned: a returned
    row whose name is the placeholder pattern has a passcode that is
    neither empty nor 0. *)
Theorem no_unprovisioned_placeholder_returned (lines : list string) :
  Forall (fun row => is_user_star (name row) = false
                     \/ (passcode row <> EmptyString /\ passcode row <> "0"))
         (parse_lines lines).
Proof.
  apply Forall_forall. intros row Hrow.
  destruct (output_origin lines row Hrow) as (line & user_id & _ & Hk).
  pose proof (kept_record_keeps _ _ _ Hk) as Hkeeps.
  unfold keeps in Hkeeps.
  destruct (is_user_star (name row)); [right | now left].
  simpl in Hkeeps. unfold has_passcode in Hkeeps.
  apply andb_true_iff in Hkeeps. destruct Hkeeps as [Ht Hz].
  split.
  - intro E. rewrite E in Ht. discriminate Ht.
  - intro E. rewrite E in Hz. discriminate Hz.
Qed.

(** **** The texts of a returned row *)

Lemma candidate_fields (line user_id : string) (row : user_row) :
  candidate line = Some (user_id, row) ->
  name row = repair_name (nth 1 (parts_of line) EmptyString)
  /\ passcode row = replace " " EmptyString (nth 2 (parts_of line) EmptyString).
Proof.
  rewrite candidate_parts.
  destruct (startswith "User " (clean_line line)); [|discriminate].
  destruct (Nat.ltb 6 _); [|discriminate].
  unfold fields_of. intro H. injection H as _ <-. split; reflexivity.
Qed.

Lemma no_space_left (s : string) : ~ occurs " " (replace " " EmptyString s).
Proof.
  rewrite RenderFacts.replace_one_char.
  induction s as [|c s IH]; simpl; [tauto|].
  destruct (Ascii.eqb_spec c " ") as [->|Hne]; simpl; [exact IH|].
  intros [E|H]; [now apply Hne | now apply IH].
Qed.

(** Property X3: a returned passcode has no space in it. *)
Theorem returned_passcode_has_no_space (lines : list string) :
  Forall (fun row => ~ occurs " " (passcode row)) (parse_lines lines).
Proof.
  apply Forall_forall. intros row Hrow.
  destruct (output_origin lines row Hrow) as (line & user_id & _ & Hk).
  destruct (candidate_fields _ _ _ (kept_is_candidate _ _ Hk)) as [_ ->].
  apply no_space_left.
Qed.

Lemma forall_chars_app (p : ascii -> bool) (a b : string) :
  forall_chars p (a ++ b) = forall_chars p a && forall_chars p b.
Proof.
  induction a as [|c a IH]; simpl; [reflexivity|].
  now rewrite IH, andb_assoc.
Qed.

Lemma truthy_app_char (a : string) (c : ascii) :
  truthy (a ++ String c EmptyString) = true.
Proof. destruct a; reflexivity. Qed.

Lemma split_ws_from_words (s : string) : forall cur,
  forall_chars (fun c => negb (isspace c)) cur = true ->
  Forall is_word_text (split_ws_from cur s).
Proof.
  induction s as [|c s IH]; intros cur Hcur; simpl.
  - destruct (truthy cur) eqn:E; constructor; [now split | constructor].
  - destruct (isspace c) eqn:Ec.
    + destruct (truthy cur) eqn:E.
      * constructor; [now split | now apply IH].
      * now apply IH.
    + apply IH. rewrite forall_chars_app, Hcur. simpl. now rewrite Ec.
Qed.

Lemma split_ws_from_word (w : string) : forall cur,
  forall_chars (fun c => negb (isspace c)) w = true ->
  split_ws_from cur w = if truthy (cur ++ w) then [cur ++ w] else [].
Proof.
  induction w as [|c w IH]; intros cur Hw; simpl.
  - now rewrite RenderFacts.append_empty_r.
  - simpl in Hw. apply andb_true_iff in Hw. destruct Hw as [Hc Hw].
    apply negb_true_iff in Hc. rewrite Hc, (IH _ Hw).
    now rewrite RenderFacts.append_assoc.
Qed.

Lemma split_ws_from_word_space (w rest : string) : forall cur,
  forall_chars (fun c => negb (isspace c)) w = true ->
  truthy (cur ++ w) = true ->
  split_ws_from cur (w ++ String " " rest)
  = (cur ++ w) :: split_ws_from EmptyString rest.
Proof.
  induction w as [|c w IH]; intros cur Hw Ht; simpl.
  - rewrite RenderFacts.append_empty_r in *. now rewrite Ht.
  - simpl in Hw. apply andb_true_iff in Hw. destruct Hw as [Hc Hw].
    apply negb_true_iff in Hc. rewrite Hc, (IH _ Hw).
    + now rewrite RenderFacts.append_assoc.
    + rewrite RenderFacts.append_assoc. exact Ht.
Qed.

(** Splitting what [join] made of words gives the words back. *)
Lemma split_ws_join (ws : list string) :
  Forall is_word_text ws -> split_ws (join " " ws) = ws.
Proof.
  unfold split_ws, join.
  induction ws as [|w ws IH]; intro H; [reflexivity|].
  inversion H as [|w' ws' [Ht Hw] Hws]; subst.
  destruct ws as [|w2 ws].
  - simpl. rewrite (split_ws_from_word w EmptyString Hw). simpl. now rewrite Ht.
  - change (String.concat " " (w :: w2 :: ws))
      with (w ++ String " " (String.concat " " (w2 :: ws))).
    rewrite (split_ws_from_word_space w _ EmptyString Hw Ht).
    simpl app. f_equal. exact (IH Hws).
Qed.

Lemma join_words_spaces (ws : list string) :
  Forall is_word_text ws ->
  forall c, occurs c (join " " ws) -> isspace c = true -> c = " "%char.
Proof.
  unfold join. induction ws as [|w ws IH]; intros H c Hc Hs; [destruct Hc|].
  inversion H as [|w' ws' [Ht Hw] Hws]; subst.
  assert (Hin : forall x, occurs x w -> isspace x = false).
  { clear - Hw. induction w as [|d w IHw]; intros x Hx; [destruct Hx|].
    simpl in Hw. apply andb_true_iff in Hw. destruct Hw as [Hd Hw].
    destruct Hx as [->|Hx]; [now apply negb_true_iff | now apply IHw]. }
  destruct ws as [|w2 ws].
  - simpl in Hc. rewrite (Hin c Hc) in Hs. discriminate Hs.
  - change (String.concat " " (w :: w2 :: ws))
      with (w ++ String " " (String.concat " " (w2 :: ws))) in Hc.
    apply RenderFacts.occurs_app in Hc. destruct Hc as [Hc|[Hc|Hc]].
    + rewrite (Hin c Hc) in Hs. discriminate Hs.
    + exact Hc.
    + now apply IH.
Qed.

(** Property X4: a returned name is normalized: its words are separated
    by one space each, with no other whitespace and none at either end, so
    normalizing it again leaves it as it is. *)
Theorem returned_name_is_normalized (lines : list string) :
  Forall (fun row =>
            join " " (split_ws (name row)) = name row
            /\ (forall c, occurs c (name row) -> isspace c = true -> c = " "%char))
         (parse_lines lines).
Proof.
  apply Forall_forall. intros row Hrow.
  destruct (output_origin lines row Hrow) as (line & user_id & _ & Hk).
  destruct (candidate_fields _ _ _ (kept_is_candidate _ _ Hk)) as [-> _].
  unfold repair_name.
  set (text := Re.sub SHORT_ENDING BOTH_GROUPS
                 (Re.sub MID_WORD BOTH_GROUPS (nth 1 (parts_of line) EmptyString))).
  assert (Hwords : Forall is_word_text (split_ws text))
    by (apply split_ws_from_words; reflexivity).
  split.
  - now rewrite (split_ws_join _ Hwords).
  - now apply join_words_spaces.
Qed.

(** **** Reading more lines *)

Lemma filter_none {A : Type} (p : A -> bool) (l : list A) :
  (forall x, In x l -> p x = false) -> filter p l = [].
Proof.
  induction l as [|x l IH]; intro H; simpl; [reflexivity|].
  rewrite (H x (or_introl eq_refl)). apply IH. intros y Hy. apply H. now right.
Qed.

(** Property X5: lines read later neither change nor reorder what the
    earlier lines recorded: the dict after [l1 ++ l2] is the dict after
    [l1] followed by the records of [l2] with a new id, each id once, in
    first-seen order. *)
Theorem later_lines_only_append (l1 l2 : list string) :
  let added := filter (fun kv => negb (has_key (fst kv) (scan l1)))
                      (first_seen_wins (kept_records l2)) in
  scan (l1 ++ l2) = (scan l1 ++ added)%list
  /\ parse_lines (l1 ++ l2) = (parse_lines l1 ++ map snd added)%list
  /\ Forall (fun kv => has_key (fst kv) (scan l1) = false) added.
Proof.
  intro added.
  assert (H : scan (l1 ++ l2) = (scan l1 ++ added)%list).
  { unfold scan at 1. rewrite fold_left_app. apply fold_first_seen. }
  split; [exact H|]. split.
  - unfold parse_lines, values. now rewrite H, map_app.
  - apply Forall_forall. intros kv Hkv. unfold added in Hkv.
    apply filter_In in Hkv. now apply negb_true_iff.
Qed.

(** Property X6: reading the same lines a second time adds nothing: a
    file followed by a copy of itself gives the list the file gives. *)
Theorem reading_twice_adds_nothing (lines : list string) :
  parse_lines (lines ++ lines) = parse_lines lines.
Proof.
  unfold parse_lines, values, scan. rewrite fold_left_app, fold_first_seen.
  fold (scan lines). rewrite filter_none; [now rewrite app_nil_r|].
  intros [k v] Hin. simpl. apply negb_false_iff, has_key_in.
  rewrite scan_first_seen. apply in_map_iff. now exists (k, v).
Qed.


(** **** Blanks around a line *)

Lemma lstrip_blank (pad s : string) : blank pad -> lstrip (pad ++ s) = lstrip s.
Proof.
  unfold blank. induction pad as [|c pad IH]; intro H; [reflexivity|].
  simpl in H. apply andb_true_iff in H. destruct H as [Hc Hpad].
  simpl. rewrite Hc. now apply IH.
Qed.

Lemma rstrip_blank_only (pad : string) : blank pad -> rstrip pad = EmptyString.
Proof.
  unfold blank. induction pad as [|c pad IH]; intro H; [reflexivity|].
  simpl in H. apply andb_true_iff in H. destruct H as [Hc Hpad].
  simpl. now rewrite (IH Hpad), Hc.
Qed.

Lemma rstrip_blank (s pad : string) : blank pad -> rstrip (s ++ pad) = rstrip s.
Proof.
  intro H. induction s as [|c s IH]; simpl.
  - now apply rstrip_blank_only.
  - now rewrite IH.
Qed.

Lemma lstrip_cases (s : string) :
  lstrip s = EmptyString /\ blank s
  \/ exists c r, lstrip s = String c r /\ isspace c = false
                 /\ forall pad, lstrip (s ++ pad) = String c r ++ pad.
Proof.
  unfold blank. induction s as [|c s IH]; [left; now split|].
  simpl. destruct (isspace c) eqn:Hc.
  - destruct IH as [[H1 H2]|(d & r & H1 & H2 & H3)].
    + left. now split.
    + right. exists d, r. split; [exact H1|]. split; [exact H2|].
      exact H3.
  - right. exists c, s. split; [reflexivity|]. split; [exact Hc|].
    intro pad. reflexivity.
Qed.

Lemma strip_blanks (before s after : string) :
  blank before -> blank after -> strip (before ++ s ++ after) = strip s.
Proof.
  intros Hb Ha. unfold strip. rewrite (lstrip_blank _ _ Hb).
  destruct (lstrip_cases s) as [[H1 H2]|(c & r & H1 & _ & H3)].
  - rewrite H1.
    assert (Hall : blank (s ++ after))
      by (unfold blank in *; now rewrite forall_chars_app, H2, Ha).
    destruct (lstrip_cases (s ++ after)) as [[H4 _]|(c & r & _ & Hc & H5)].
    + now rewrite H4.
    + exfalso. specialize (H5 EmptyString).
      rewrite RenderFacts.append_empty_r in H5.
      assert (Hin : forall t, blank t -> forall d u, lstrip t = String d u ->
                              isspace d = true).
      { clear. unfold blank. induction t as [|x t IH]; intros H d u E;
          [discriminate E|].
        simpl in H. apply andb_true_iff in H. destruct H as [Hx Ht].
        simpl in E. rewrite Hx in E. exact (IH Ht d u E). }
      rewrite (Hin _ Hall _ _ H5) in Hc. discriminate Hc.
  - rewrite H3, H1. now apply rstrip_blank.
Qed.

(** Property X7: blanks before and after a line do not matter: the line
    with any whitespace around it, the CR of a CR LF ending included, does
    to the dict what the line alone does. *)
Theorem blanks_around_a_line_are_ignored
    (seen : seen_users) (before line after : string) :
  forall_chars isspace before = true ->
  forall_chars isspace after = true ->
  process_line seen (before ++ line ++ after) = process_line seen line.
Proof.
  intros Hb Ha. unfold process_line, clean_line.
  now rewrite (strip_blanks before line after Hb Ha).
Qed.

Lemma blanks_around_a_line_are_ignored_witness :
  process_line [] (String "009" "  " ++ "User 7, Bob, 4821, x,x,1,0"
                   ++ String " " (String CR (String LF EmptyString)))
  = process_line [] "User 7, Bob, 4821, x,x,1,0".
Proof.
  apply (blanks_around_a_line_are_ignored []
           (String "009" "  ") "User 7, Bob, 4821, x,x,1,0"
           (String " " (String CR (String LF EmptyString))));
    reflexivity.
Defined.

(** **** Commas *)

Lemma split_comma_length (s : string) :
  List.length (split "," s) = S (commas s).
Proof.
  unfold split. induction s as [|c s IH]; [reflexivity|].
  cbn [split_from prefix String.length Nat.sub commas].
  destruct (ascii_dec "," c) as [<-|Hne].
  - rewrite RenderFacts.prefix_empty. simpl. now rewrite IH.
  - replace (Ascii.eqb c ",") with false
      by (symmetry; apply Ascii.eqb_neq; congruence).
    destruct (split_from "," 0 s) as [|p ps] eqn:E; [discriminate IH|].
    simpl in *. exact IH.
Qed.


Lemma commas_app (a b : string) : commas (a ++ b) = commas a + commas b.
Proof.
  induction a as [|c a IH]; simpl; [reflexivity | rewrite IH; lia].
Qed.

Lemma space_is_no_comma (c : ascii) : isspace c = true -> Ascii.eqb c "," = false.
Proof.
  intro H. destruct (Ascii.eqb_spec c ",") as [->|_]; [discriminate H | reflexivity].
Qed.

Lemma commas_lstrip (s : string) : commas (lstrip s) = commas s.
Proof.
  induction s as [|c s IH]; [reflexivity|]. simpl.
  destruct (isspace c) eqn:Hc; [|reflexivity].
  now rewrite IH, (space_is_no_comma c Hc).
Qed.

Lemma commas_rstrip (s : string) : commas (rstrip s) = commas s.
Proof.
  induction s as [|c s IH]; [reflexivity|]. simpl.
  destruct (rstrip s) as [|d r] eqn:E.
  - rewrite <- IH. destruct (isspace c) eqn:Hc; simpl.
    + now rewrite (space_is_no_comma c Hc).
    + lia.
  - simpl in *. now rewrite IH.
Qed.

Lemma prefix_split (p s : string) :
  prefix p s = true -> exists rest, s = p ++ rest.
Proof.
  revert s. induction p as [|c p IH]; intros s H; [now exists s|].
  destruct s as [|d s]; [discriminate H|]. simpl in H.
  destruct (ascii_dec c d) as [<-|_]; [|discriminate H].
  destruct (IH s H) as [rest ->]. now exists rest.
Qed.

Lemma replace_from_skip (old new t rest : string) :
  replace_from old new (String.length t) (t ++ rest)
  = replace_from old new 0 rest.
Proof. induction t as [|c t IH]; [reflexivity | exact IH]. Qed.

(** A replacement that keeps the number of commas of what it replaces
    keeps the number of commas of the text. *)
Lemma commas_replace (old new : string) :
  commas old = commas new ->
  forall s, commas (replace old new s) = commas s.
Proof.
  intro Hsame. unfold replace. destruct old as [|o old'].
  - simpl in Hsame. induction s as [|c s IH]; simpl; [now rewrite <- Hsame|].
    rewrite commas_app. simpl. rewrite IH, <- Hsame. reflexivity.
  - assert (H : forall n s, String.length s <= n ->
                  commas (replace_from (String o old') new 0 s) = commas s).
    { induction n as [|n IH]; intros s Hlen.
      - destruct s; [reflexivity | simpl in Hlen; lia].
      - destruct s as [|c r]; [reflexivity|].
        cbn [replace_from].
        destruct (prefix (String o old') (String c r)) eqn:Hp.
        + destruct (prefix_split _ _ Hp) as [rest E].
          simpl in E. injection E as Ec Er. subst c r.
          cbn [String.length Nat.sub]. rewrite Nat.sub_0_r, replace_from_skip.
          rewrite commas_app, IH.
          * change (commas (String o (old' ++ rest)))
              with (commas (String o old' ++ rest)).
            rewrite commas_app. lia.
          * simpl in Hlen.
            assert (Happ : forall a b, String.length (a ++ b)
                                       = String.length a + String.length b)
              by (intros a b; induction a as [|x a IHa]; simpl;
                  [reflexivity | now rewrite IHa]).
            rewrite Happ in Hlen. lia.
        + simpl. rewrite IH; [reflexivity | simpl in Hlen; lia]. }
    intro s. exact (H _ _ (Nat.le_refl _)).
Qed.

Lemma commas_clean_line (line : string) : commas (clean_line line) = commas line.
Proof.
  unfold clean_line, strip.
  rewrite !commas_replace by reflexivity.
  now rewrite commas_rstrip, commas_lstrip.
Qed.

(** Property X8: a line has one field more than it has commas, and a line
    with fewer than six commas is ignored wherever it stands, whatever it
    starts with. *)
Theorem lines_with_few_commas_are_ignored (seen : seen_users) (line : string) :
  List.length (parts_of line) = S (commas line)
  /\ (commas line < 6 ->
      candidate line = None /\ process_line seen line = seen).
Proof.
  assert (Hlen : List.length (parts_of line) = S (commas line)).
  { unfold parts_of. now rewrite length_map, split_comma_length, commas_clean_line. }
  split; [exact Hlen|]. intro Hfew.
  assert (Hc : candidate line = None).
  { rewrite candidate_parts, Hlen.
    destruct (startswith "User " (clean_line line)); [|reflexivity].
    now replace (Nat.ltb 6 (S (commas line))) with false
      by (symmetry; apply Nat.ltb_ge; lia). }
  split; [exact Hc|].
  rewrite process_line_kept. unfold kept_record. now rewrite Hc.
Qed.

End ParserMore.

(* ================================================================== *)
(** ** More facts about the renderer *)

Module RenderMore.
Import PyStr Parser Render Reader RenderFacts.

(** **** The cells read back *)






(** **** The secret read back *)






(** **** The options of the select *)

Lemma auth_options_markup (auth_num : string) :
  auth_options auth_num =
  [option_markup "None" (auth_num =? "None");
   option_markup "A1" ("1" =? auth_num); option_markup "A2" ("2" =? auth_num);
   option_markup "A3" ("3" =? auth_num); option_markup "A4" ("4" =? auth_num);
   option_markup "A5" ("5" =? auth_num); option_markup "A6" ("6" =? auth_num);
   option_markup "A7" ("7" =? auth_num); option_markup "A8" ("8" =? auth_num)].
Proof. reflexivity. Qed.

Lemma auth_num_cases (auth_value : string) :
  auth_num_of auth_value = "None"
  \/ exists d, auth_value = String "A" (String d EmptyString)
               /\ auth_num_of auth_value = String d EmptyString.
Proof.
  unfold auth_num_of, startswith.
  destruct auth_value as [|c1 [|c2 [|c3 r]]]; try (left; reflexivity).
  - left. cbn [prefix]. destruct (ascii_dec "A" c1); reflexivity.
  - cbn [prefix String.length Nat.eqb slice_from slice_to].
    destruct (ascii_dec "A" c1) as [<-|_]; [|now left].
    rewrite ?prefix_empty. cbn [andb].
    destruct (isdigit (String c2 EmptyString)); [right | now left].
    exists c2. split; reflexivity.
  - left. cbn [prefix String.length Nat.eqb andb].
    destruct (ascii_dec "A" c1); rewrite ?prefix_empty; reflexivity.
Qed.

(** Property X11: for a level the parser can return, the select of the row
    has that level selected and no other option; for any other value no
    level is selected, and None is selected unless the value is [A] and
    one digit, in which case (say [A9] or [A0]) no option is selected at
    all. *)
Theorem select_marks_the_level (auth_value : string) :
  (In auth_value OPTION_VALUES ->
   auth_options (auth_num_of auth_value)
   = map (fun v => option_markup v (v =? auth_value)) OPTION_VALUES)
  /\ (~ In auth_value OPTION_VALUES ->
      auth_options (auth_num_of auth_value)
      = map (fun v => option_markup v
                        ((v =? "None") && (auth_num_of auth_value =? "None")))
            OPTION_VALUES)
  /\ auth_options (auth_num_of "A9")
     = map (fun v => option_markup v false) OPTION_VALUES.
Proof.
  split; [|split; [|reflexivity]].
  - unfold OPTION_VALUES. simpl.
    intros [<-|[<-|[<-|[<-|[<-|[<-|[<-|[<-|[<-|[]]]]]]]]]]; reflexivity.
  - intro Hout. rewrite auth_options_markup.
    destruct (auth_num_cases auth_value) as [->|(d & -> & ->)]; [reflexivity|].
    assert (Hd : forall k, In (String "A" (String k EmptyString)) OPTION_VALUES ->
                           (String k EmptyString =? String d EmptyString) = false).
    { intros k Hk. apply String.eqb_neq. intro E. injection E as ->.
      now apply Hout. }
    rewrite !Hd by (unfold OPTION_VALUES; simpl; tauto).
    reflexivity.
Qed.

(** **** The logo *)

Lemma logo_block_ends :
  (exists t, LOGO_OPEN = t ++ "<img src='data:image/")
  /\ (exists t, LOGO_CLOSE = "' alt=" ++ t).
Proof.
  split.
  - exists (slice_to (String.length LOGO_OPEN - 21) LOGO_OPEN). reflexivity.
  - eexists. reflexivity.
Qed.

Lemma logo_in_page
    (now : datetime) (data : list user_row) (password logo_b64 mime_type : string) :
  mime_allowed mime_type = true ->
  contains ("<img src='data:image/" ++ mime_type ++ ";base64,"
            ++ logo_b64 ++ "' alt=")
           (generate_html now data password (Some (logo_b64, mime_type))).
Proof.
  intro H. unfold generate_html, logo_html_of. rewrite H.
  do 3 apply contains_after. apply contains_before.
  destruct logo_block_ends as [[t1 ->] [t2 ->]].
  exists t1, t2. rewrite !append_assoc. reflexivity.
Qed.

(** Property X12: the logo is in the page exactly when its kind is one of
    png, jpeg, gif and webp: with such a kind the page has the image with
    the kind and the data as given, and with any other kind the page is
    the page without a logo. *)
Theorem logo_embedded_iff_kind_allowed
    (now : datetime) (data : list user_row) (password logo_b64 mime_type : string) :
  (mime_allowed mime_type = true <-> In mime_type ["png"; "jpeg"; "gif"; "webp"])
  /\ (mime_allowed mime_type = true ->
      contains ("<img src='data:image/" ++ mime_type ++ ";base64,"
                ++ logo_b64 ++ "' alt=")
               (generate_html now data password (Some (logo_b64, mime_type))))
  /\ (mime_allowed mime_type = false ->
      generate_html now data password (Some (logo_b64, mime_type))
      = generate_html now data password None).
Proof.
  split; [|split].
  - unfold mime_allowed. rewrite existsb_exists. split.
    + intros (x & Hx & E). apply String.eqb_eq in E. now subst.
    + intro H. exists mime_type. split; [exact H | apply String.eqb_refl].
  - apply logo_in_page.
  - intro H. unfold generate_html, logo_html_of. now rewrite H.
Qed.

End RenderMore.

(* ================================================================== *)
(** ** Facts about the logo *)

Module LogoFacts.
Import PyStr Parser Render Logo RenderFacts RenderMore.

(** **** The base64 text *)

Lemma b64_char_ok (n : nat) : is_b64_char (b64_char n) = true.
Proof.
  do 64 (destruct n as [|n]; [reflexivity|]). reflexivity.
Qed.

(** Induction on byte strings, three bytes at a time. *)
Lemma by_three (P : string -> Prop) :
  P EmptyString ->
  (forall a, P (String a EmptyString)) ->
  (forall a b, P (String a (String b EmptyString))) ->
  (forall a b c rest, P rest -> P (String a (String b (String c rest)))) ->
  forall data, P data.
Proof.
  intros H0 H1 H2 H3.
  assert (H : forall n data, String.length data <= n -> P data).
  { induction n as [|n IH]; intros data Hlen.
    - destruct data; [exact H0 | simpl in Hlen; lia].
    - destruct data as [|a [|b [|c rest]]]; auto.
      apply H3, IH. simpl in Hlen. lia. }
  intro data. exact (H _ _ (Nat.le_refl _)).
Qed.

Lemma is_b64_not_markup (c : ascii) :
  is_b64_char c = true ->
  c <> "'"%char /\ c <> "034"%char /\ c <> "<"%char /\ c <> ">"%char
  /\ c <> "&"%char.
Proof.
  intro H. repeat split; intros ->; discriminate H.
Qed.

(** Property X13: the base64 text of the logo has four characters for
    every three bytes, the last group padded, and is made of letters,
    digits, [+], [/] and [=] only, so nothing in it can close the
    attribute it is written in. *)
Theorem logo_text_is_base64 (img_data : string) :
  String.length (b64encode img_data) = 4 * ((String.length img_data + 2) / 3)
  /\ forall_chars is_b64_char (b64encode img_data) = true
  /\ (forall c, occurs c (b64encode img_data) ->
        c <> "'"%char /\ c <> "034"%char /\ c <> "<"%char /\ c <> ">"%char
        /\ c <> "&"%char).
Proof.
  assert (Hshape : String.length (b64encode img_data)
                   = 4 * ((String.length img_data + 2) / 3)
                   /\ forall_chars is_b64_char (b64encode img_data) = true).
  { induction img_data as [|a|a b|a b c rest [IHlen IHchars]] using by_three.
    - split; reflexivity.
    - split; [reflexivity|]. cbn [b64encode forall_chars].
      now rewrite !b64_char_ok.
    - split; [reflexivity|]. cbn [b64encode forall_chars].
      now rewrite !b64_char_ok.
    - split.
      + cbn [b64encode String.length]. rewrite IHlen.
        replace (S (S (S (String.length rest))) + 2)
          with (String.length rest + 2 + 1 * 3) by lia.
        rewrite Nat.div_add by lia. lia.
      + cbn [b64encode forall_chars]. now rewrite !b64_char_ok, IHchars. }
  destruct Hshape as [Hlen Hchars]. split; [exact Hlen|]. split; [exact Hchars|].
  intros c Hc. apply is_b64_not_markup.
  clear Hlen. induction (b64encode img_data) as [|d s IH]; [destruct Hc|].
  simpl in Hchars. apply andb_true_iff in Hchars. destruct Hchars as [Hd Hs].
  destruct Hc as [->|Hc]; [exact Hd | exact (IH Hs Hc)].
Qed.

(** **** The kind of the image *)

Lemma mime_of_ext_allowed (ext : string) : mime_allowed (mime_of_ext ext) = true.
Proof.
  unfold mime_of_ext.
  repeat match goal with |- context [if ?b then _ else _] => destruct b end;
    reflexivity.
Qed.


(** **** What [process_logo] returns and shows *)

(** Property X14: when [process_logo] returns a logo, the file is a
    readable regular file, small or accepted by the user, the data is the
    base64 text of its bytes and the kind is one the renderer accepts, so
    the page made with it has the image; when it returns nothing, the
    file is not a readable regular file or it is large and the user
    declined. *)
Theorem logo_returned_is_always_embedded
    (files : filesystem) (seps : list ascii) (os_text : string) (answer : bool)
    (image_path : string)
    (now : datetime) (data : list user_row) (password : string) :
  match fst (process_logo files seps os_text answer image_path) with
  | Some (logo_b64, mime_type) =>
      (exists img_data,
          files image_path = Regular true img_data
          /\ logo_b64 = b64encode img_data
          /\ (String.length img_data <= LARGE_LOGO \/ answer = true))
      /\ mime_type = mime_of_ext (lower (snd (splitext seps image_path)))
      /\ mime_allowed mime_type = true
      /\ contains ("<img src='data:image/" ++ mime_type ++ ";base64,"
                   ++ logo_b64 ++ "' alt=")
                  (generate_html now data password (Some (logo_b64, mime_type)))
  | None =>
      ~ readable_file files image_path
      \/ (exists img_data,
             files image_path = Regular true img_data
             /\ LARGE_LOGO < String.length img_data /\ answer = false)
  end.
Proof.
  unfold process_logo, isfile, open_read, readable_file.
  generalize LARGE_LOGO. intro limit.
  destruct (files image_path) as [| |[|] img_data] eqn:E; cbn [negb fst].
  - left. intros [t H]. discriminate H.
  - left. intros [t H]. discriminate H.
  - destruct (Nat.ltb limit (String.length img_data)) eqn:Hsize.
    + apply Nat.ltb_lt in Hsize. destruct answer; cbn [fst].
      * split; [exists img_data; auto|]. split; [reflexivity|].
        split; [apply mime_of_ext_allowed|].
        apply logo_in_page, mime_of_ext_allowed.
      * right. exists img_data. auto.
    + apply Nat.ltb_ge in Hsize. cbn [fst].
      split; [exists img_data; auto|]. split; [reflexivity|].
      split; [apply mime_of_ext_allowed|].
      apply logo_in_page, mime_of_ext_allowed.
  - left. intros [t H]. discriminate H.
Qed.

(** Property X15: [process_logo] shows at most one box: the warning,
    exactly when the file can be read and has more than 100 * 1024 bytes,
    with its size in whole KB; the error box, exactly when the file
    cannot be read, with [Invalid image file path] when the path is not a
    regular file; and no box otherwise. *)
Theorem logo_boxes
    (files : filesystem) (seps : list ascii) (os_text : string) (answer : bool)
    (image_path : string) :
  let boxes := snd (process_logo files seps os_text answer image_path) in
  (boxes = [] <->
   exists img_data, files image_path = Regular true img_data
                    /\ String.length img_data <= LARGE_LOGO)
  /\ ((exists message, boxes = [AskYesNo "Large Image Warning" message]) <->
      exists img_data, files image_path = Regular true img_data
                       /\ LARGE_LOGO < String.length img_data)
  /\ ((exists message, boxes = [ShowError "Logo Error" message]) <->
      ~ readable_file files image_path)
  /\ (isfile files image_path = false ->
      boxes = [ShowError "Logo Error"
                 "Failed to process logo: Invalid image file path"])
  /\ (forall img_data, files image_path = Regular true img_data ->
        LARGE_LOGO < String.length img_data ->
        boxes = [AskYesNo "Large Image Warning"
                   (large_logo_message (String.length img_data))]).
Proof.
  unfold process_logo, isfile, open_read, readable_file.
  generalize LARGE_LOGO. intro limit.
  destruct (files image_path) as [| |[|] img_data] eqn:E; cbn [negb snd].
  - split; [split; [discriminate | intros (t & H & _); discriminate H]|].
    split; [split; [intros [m H]; discriminate H
                   | intros (t & H & _); discriminate H]|].
    split; [split; [intros _ [t H]; discriminate H | intros _; now eexists]|].
    split; [reflexivity | intros t H; discriminate H].
  - split; [split; [discriminate | intros (t & H & _); discriminate H]|].
    split; [split; [intros [m H]; discriminate H
                   | intros (t & H & _); discriminate H]|].
    split; [split; [intros _ [t H]; discriminate H | intros _; now eexists]|].
    split; [reflexivity | intros t H; discriminate H].
  - destruct (Nat.ltb limit (String.length img_data)) eqn:Hsize.
    + apply Nat.ltb_lt in Hsize.
      assert (Hboxes : snd (if answer
                            then (Some (b64encode img_data,
                                        mime_of_ext (lower (snd (splitext seps image_path)))),
                                  [AskYesNo "Large Image Warning"
                                     (large_logo_message (String.length img_data))])
                            else (None,
                                  [AskYesNo "Large Image Warning"
                                     (large_logo_message (String.length img_data))]))
                       = [AskYesNo "Large Image Warning"
                            (large_logo_message (String.length img_data))])
        by (destruct answer; reflexivity).
      rewrite Hboxes.
      split; [split; [discriminate
                     | intros (t & H & Hle); injection H as <-; lia]|].
      split; [split; [intros _; now exists img_data | intros _; now eexists]|].
      split; [split; [intros [m H]; discriminate H
                     | intro H; elim H; now eexists]|].
      split; [discriminate|]. intros t H _. now injection H as <-.
    + apply Nat.ltb_ge in Hsize. cbn [snd].
      split; [split; [intros _; now exists img_data | reflexivity]|].
      split; [split; [intros [m H]; discriminate H
                     | intros (t & H & Hlt); injection H as <-; lia]|].
      split; [split; [intros [m H]; discriminate H
                     | intro H; elim H; now eexists]|].
      split; [discriminate|]. intros t H Hlt. injection H as <-. lia.
  - split; [split; [discriminate | intros (t & H & _); discriminate H]|].
    split; [split; [intros [m H]; discriminate H
                   | intros (t & H & _); discriminate H]|].
    split; [split; [intros _ [t H]; discriminate H | intros _; now eexists]|].
    split; [discriminate | intros t H; discriminate H].
Qed.

End LogoFacts.

(* ================================================================== *)
(** ** Facts about the command of the form *)

Module GuiFacts.
Import PyStr Parser Render Logo Gui.

Lemma truthy_true (s : string) : truthy s = true <-> s <> EmptyString.
Proof. destruct s; simpl; split; congruence. Qed.



Lemma slice_to_length (n : nat) (s : string) : String.length (slice_to n s) <= n.
Proof.
  revert s. induction n as [|n IH]; intros [|c s]; simpl; try lia.
  specialize (IH s). lia.
Qed.

(** Property X17: how the command fails: with no input file entered, with
    a path that is not a regular file, and with a file that gives no
    record, the status is the fixed text of that case, in the error
    colour, and no box is shown, the save dialog included; when the logo
    is refused the status stays at PROCESSING and the save dialog is not
    shown either; and an error text is cut to 40 characters. *)
Theorem failures_of_the_command (w : world) (f : form) :
  let r := generate_report w f in
  (file_entry f = EmptyString ->
   r = mkResult "ERROR: NO INPUT FILE SELECTED" true None [])
  /\ (file_entry f <> EmptyString ->
      isfile (texts w) (file_entry f) = false ->
      r = mkResult "ERROR: Invalid file path" true None [])
  /\ (file_entry f <> EmptyString ->
      parse_bosch_txt (texts w) (file_entry f) = Returns [] ->
      r = mkResult "WARNING: NO DATA FOUND" true None [])
  /\ (forall data boxes,
        file_entry f <> EmptyString -> logo_entry f <> EmptyString ->
        parse_bosch_txt (texts w) (file_entry f) = Returns data ->
        data <> [] ->
        process_logo (binaries w) (path_seps w) (os_text w)
          (large_logo_answer w) (logo_entry f) = (None, boxes) ->
        r = mkResult "PROCESSING..." false None boxes)
  /\ (forall text, String.length (error_status text) <= 47).
Proof.
  intro r. unfold r, generate_report.
  split; [|split; [|split; [|split]]].
  - intros ->. reflexivity.
  - intros Hf Hnot. apply truthy_true in Hf. rewrite Hf. cbn [negb].
    unfold parse_bosch_txt. rewrite Hnot. reflexivity.
  - intros Hf Hp. apply truthy_true in Hf. rewrite Hf, Hp. reflexivity.
  - intros data boxes Hf Hl Hp Hd Hlogo.
    apply truthy_true in Hf, Hl. rewrite Hf, Hl, Hp, Hlogo. cbn [negb].
    destruct data; [now elim Hd | reflexivity].
  - intro text. unfold error_status.
    pose proof (slice_to_length 40 text) as H.
    assert (Happ : forall a b, String.length (a ++ b)
                               = String.length a + String.length b)
      by (intros a b; induction a as [|c a IH]; simpl; [reflexivity | now rewrite IH]).
    rewrite Happ. change (String.length "ERROR: ") with 7. lia.
Qed.

End GuiFacts.

(* ================================================================== *)
(** ** More facts about the script of the document *)

Module DocMore.
Import PyStr Parser DocModel DocViews DocFacts.

(** **** Pages *)

Lemma show_slice_nth (start stop : nat) (rs : list row) : forall k i,
  nth_error (show_slice start stop k rs) i
  = option_map
      (set_display (display_on (Nat.leb start (k + i) && Nat.ltb (k + i) stop)))
      (nth_error rs i).
Proof.
  induction rs as [|r rs IH]; intros k i.
  - destruct i; reflexivity.
  - destruct i as [|i]; simpl.
    + rewrite Nat.add_0_r. reflexivity.
    + rewrite IH. now rewrite Nat.add_succ_r.
Qed.

Lemma show_slice_length (start stop : nat) (rs : list row) : forall k,
  List.length (show_slice start stop k rs) = List.length rs.
Proof.
  induction rs as [|r rs IH]; intro k; simpl; [reflexivity | now rewrite IH].
Qed.

Lemma on_page_iff (k p : nat) :
  1 <= p ->
  Nat.leb ((p - 1) * rowsPerPage) k && Nat.ltb k ((p - 1) * rowsPerPage + rowsPerPage)
  = Nat.eqb (page_of k) p.
Proof.
  intro Hp. unfold page_of, rowsPerPage.
  pose proof (Nat.div_mod_eq k 50) as Hk.
  pose proof (Nat.mod_upper_bound k 50 ltac:(lia)) as Hm.
  destruct (Nat.eqb_spec (k / 50 + 1) p) as [E|E].
  - apply andb_true_iff. split; [apply Nat.leb_le | apply Nat.ltb_lt]; nia.
  - apply andb_false_iff.
    destruct (Nat.le_gt_cases ((p - 1) * 50) k) as [Hle|Hgt].
    + right. apply Nat.ltb_ge.
      assert (k / 50 <> p - 1) by lia.
      assert (p - 1 <= k / 50) by (apply Nat.div_le_lower_bound; lia).
      nia.
    + left. apply Nat.leb_gt. exact Hgt.
Qed.

Lemma page_of_in_range (n k : nat) :
  k < n -> 1 <= page_of k <= total_pages n.
Proof.
  intro Hk. unfold page_of, total_pages, rowsPerPage. simpl Nat.sub.
  split; [lia|].
  assert (H : k / 50 < (n + 49) / 50); [|lia].
  apply Nat.Div0.div_lt_upper_bound.
  pose proof (Nat.div_mod_eq (n + 49) 50) as Hn.
  pose proof (Nat.mod_upper_bound (n + 49) 50 ltac:(lia)) as Hm.
  lia.
Qed.

(** Property X18: after [paginateTable] a row is shown exactly when its
    index is on the current page, 50 rows to a page; every row (deleted
    ones too) has one page, between 1 and the number of pages, and when
    there is more than one page that page has its button, active exactly
    when it is the current page. *)
Theorem every_row_on_one_page (d : document) (k : nat) (r : row) :
  1 <= currentPage d ->
  nth_error (rows d) k = Some r ->
  let d' := paginateTable d in
  nth_error (rows d') k
  = Some (set_display (display_on (Nat.eqb (page_of k) (currentPage d))) r)
  /\ 1 <= page_of k <= total_pages (List.length (rows d))
  /\ (1 < total_pages (List.length (rows d)) ->
      In (str_of_nat (page_of k), Nat.eqb (page_of k) (currentPage d))
         (pagination d'))
  /\ (total_pages (List.length (rows d)) <= 1 -> pagination d' = []).
Proof.
  intros Hp Hr d'.
  assert (Hk : k < List.length (rows d))
    by (apply nth_error_Some; now rewrite Hr).
  pose proof (page_of_in_range _ _ Hk) as Hrange.
  split; [|split; [exact Hrange|split]].
  - unfold d', paginateTable. cbn [rows].
    rewrite show_slice_nth, Hr. simpl option_map.
    cbn [Nat.add]. now rewrite on_page_iff.
  - intro Hmany. unfold d', paginateTable. cbn [pagination].
    fold (total_pages (List.length (rows d))).
    replace (Nat.ltb 1 (total_pages (List.length (rows d)))) with true
      by (symmetry; now apply Nat.ltb_lt).
    apply in_map_iff. exists (page_of k). split; [reflexivity|].
    apply in_seq. lia.
  - intro Hone. unfold d', paginateTable. cbn [pagination].
    fold (total_pages (List.length (rows d))).
    replace (Nat.ltb 1 (total_pages (List.length (rows d)))) with false
      by (symmetry; now apply Nat.ltb_ge).
    reflexivity.
Qed.

Lemma every_row_on_one_page_witness :
  let d := loaded (repeat (mkRow "Al" "1" "None") 120) "pw" in
  let d' := paginateTable d in
  nth_error (rows d') 75
  = Some (set_display (display_on (Nat.eqb (page_of 75) (currentPage d)))
            (rendered_row (mkRow "Al" "1" "None")))
  /\ 1 <= page_of 75 <= total_pages (List.length (rows d))
  /\ (1 < total_pages (List.length (rows d)) ->
      In (str_of_nat (page_of 75), Nat.eqb (page_of 75) (currentPage d))
         (pagination d'))
  /\ (total_pages (List.length (rows d)) <= 1 -> pagination d' = []).
Proof.
  apply (every_row_on_one_page
           (loaded (repeat (mkRow "Al" "1" "None") 120) "pw") 75
           (rendered_row (mkRow "Al" "1" "None"))).
  - simpl. lia.
  - reflexivity.
Defined.


(** **** Counts *)
















(** **** Rows are kept *)

Lemma run_length (acts : list action) : forall d,
  List.length (rows (run d acts))
  = List.length (rows d) + List.length (filter is_add acts).
Proof.
  induction acts as [|a acts IH]; intro d; [simpl; lia|].
  change (run d (a :: acts)) with (run (step d a) acts).
  rewrite IH, step_length. destruct a; simpl; lia.
Qed.



(** **** The gate *)






(** **** Adding a row *)

(** Property X22: [addRow] puts the new row after all the others,
    whatever the current page is: a row in the Added state with empty
    name and passcode and level None, shown only if the current page is
    the page of its index; the rows before it keep their place and their
    content. *)
Theorem added_row_goes_last (d : document) :
  1 <= currentPage d ->
  let n := List.length (rows d) in
  let d' := addRow d in
  List.length (rows d') = S n
  /\ nth_error (rows d') n
     = Some (set_display (display_on (Nat.eqb (page_of n) (currentPage d)))
               added_row)
  /\ state_of added_row = Added
  /\ textContent (name_cell added_row) = EmptyString
  /\ textContent (passcode_cell added_row) = EmptyString
  /\ select_value added_row = "None"
  /\ (forall i r, nth_error (rows d) i = Some r ->
        exists r', nth_error (rows d') i = Some r' /\ same_row r' r).
Proof.
  intros Hp n d'.
  split; [|split; [|repeat split]].
  - unfold d', addRow, paginateTable, updateUserCount, with_rows. cbn [rows].
    rewrite show_slice_length, length_app. simpl. fold n. lia.
  - unfold d', addRow, paginateTable, updateUserCount, with_rows.
    cbn [rows currentPage].
    rewrite show_slice_nth, nth_error_app2, Nat.sub_diag by (fold n; lia).
    simpl option_map. cbn [Nat.add]. fold n. now rewrite on_page_iff.
  - intros i r Hr. exact (step_row d ClickAdd i r Hr).
Qed.

Lemma added_row_goes_last_witness :
  let d := loaded (repeat (mkRow "Al" "1" "None") 50) "pw" in
  let d' := addRow d in
  List.length (rows d') = 51
  /\ nth_error (rows d') 50
     = Some (set_display (display_on (Nat.eqb (page_of 50) (currentPage d)))
               added_row)
  /\ state_of added_row = Added
  /\ textContent (name_cell added_row) = EmptyString
  /\ textContent (passcode_cell added_row) = EmptyString
  /\ select_value added_row = "None"
  /\ (forall i r, nth_error (rows d) i = Some r ->
        exists r', nth_error (rows d') i = Some r' /\ same_row r' r).
Proof.
  apply (added_row_goes_last (loaded (repeat (mkRow "Al" "1" "None") 50) "pw")).
  simpl. lia.
Defined.

(** The fiftieth-first row of that report is added while page 1 is
    shown, and is hidden. *)
Example added_row_on_the_next_page :
  option_map display
    (nth_error (rows (addRow (loaded (repeat (mkRow "Al" "1" "None") 50) "pw"))) 50)
  = Some "none".
Proof. reflexivity. Qed.

(** **** Editing a row *)

Lemma markModified_live (r : row) :
  is_deleted r = false ->
  classList (markModified r) = cl_add "modified" (classList r)
  /\ name_cell (markModified r) = name_cell r
  /\ passcode_cell (markModified r) = passcode_cell r
  /\ select_value (markModified r) = select_value r.
Proof.
  unfold is_deleted, markModified. intros ->. simpl. repeat split.
Qed.

Lemma state_after_edit (cl : list string) :
  cl_contains "deleted" cl = false ->
  (if cl_contains "deleted" (cl_add "modified" cl) then Deleted
   else if cl_contains "added" (cl_add "modified" cl) then Added
   else if cl_contains "modified" (cl_add "modified" cl) then Modified
   else Normal)
  = (if cl_contains "added" cl then Added else Modified).
Proof.
  intro H. rewrite !cl_contains_add, H. simpl.
  rewrite orb_false_r, orb_true_r. reflexivity.
Qed.

(** Property X23: on a row that is not deleted an edit takes effect and
    marks the row: typing a name, typing a passcode or picking a level
    sets that field, leaves the two others alone and puts the row in the
    Modified state, or leaves it Added if it was added. *)
Theorem edit_marks_the_row (r : row) (text : string) :
  settled r ->
  is_deleted r = false ->
  let after := if cl_contains "added" (classList r) then Added else Modified in
  (textContent (name_cell (type_name text r)) = text
   /\ passcode_cell (type_name text r) = passcode_cell r
   /\ select_value (type_name text r) = select_value r
   /\ state_of (type_name text r) = after)
  /\ (textContent (passcode_cell (type_passcode text r)) = text
      /\ name_cell (type_passcode text r) = name_cell r
      /\ select_value (type_passcode text r) = select_value r
      /\ state_of (type_passcode text r) = after)
  /\ (select_value (choose_auth text r) = text
      /\ name_cell (choose_auth text r) = name_cell r
      /\ passcode_cell (choose_auth text r) = passcode_cell r
      /\ state_of (choose_auth text r) = after).
Proof.
  intros Hs Hd after. unfold settled in Hs. rewrite Hd in Hs.
  destruct Hs as (Hn & Hp & Hsel & _ & _).
  destruct r as [cl [ne nt] [pe pt] sv sd bt bc di].
  unfold is_deleted in Hd. simpl in *. subst ne pe sd.
  unfold type_name, type_passcode, choose_auth, markModified, state_of, after.
  simpl. rewrite Hd. simpl.
  pose proof (state_after_edit cl Hd) as Hstate.
  repeat split; exact Hstate.
Qed.

Lemma edit_marks_the_row_witness :
  let r := rendered_row (mkRow "Bob" "4821" "A3") in
  let after := if cl_contains "added" (classList r) then Added else Modified in
  (textContent (name_cell (type_name "Rob" r)) = "Rob"
   /\ passcode_cell (type_name "Rob" r) = passcode_cell r
   /\ select_value (type_name "Rob" r) = select_value r
   /\ state_of (type_name "Rob" r) = after)
  /\ (textContent (passcode_cell (type_passcode "Rob" r)) = "Rob"
      /\ name_cell (type_passcode "Rob" r) = name_cell r
      /\ select_value (type_passcode "Rob" r) = select_value r
      /\ state_of (type_passcode "Rob" r) = after)
  /\ (select_value (choose_auth "Rob" r) = "Rob"
      /\ name_cell (choose_auth "Rob" r) = name_cell r
      /\ passcode_cell (choose_auth "Rob" r) = passcode_cell r
      /\ state_of (choose_auth "Rob" r) = after).
Proof.
  apply (edit_marks_the_row (rendered_row (mkRow "Bob" "4821" "A3")) "Rob").
  - unfold settled. simpl. repeat split; reflexivity.
  - reflexivity.
Defined.

(** **** Deleting does not move rows *)

Lemma show_slice_display (start stop : nat) (rs rs' : list row) :
  List.length rs = List.length rs' ->
  forall k, map display (show_slice start stop k rs)
            = map display (show_slice start stop k rs').
Proof.
  revert rs'. induction rs as [|r rs IH]; intros [|r' rs'] H k;
    try discriminate H; [reflexivity|].
  simpl. f_equal. apply IH. simpl in H. lia.
Qed.

Lemma at_row_length (f : row -> row) (rs : list row) : forall i,
  List.length (at_row i f rs) = List.length rs.
Proof.
  induction rs as [|r rs IH]; intros [|i]; simpl; try reflexivity.
  now rewrite IH.
Qed.

(** Property X24: deleting or restoring a row moves no row to another
    page: the rows shown, the page buttons and the current page are what
    they are for the same table without the click, a deleted row keeping
    its slot. *)
Theorem delete_keeps_the_pages (d : document) (i : nat) (answer : bool) :
  map display (rows (deleteRow i answer d)) = map display (rows (paginateTable d))
  /\ pagination (deleteRow i answer d) = pagination (paginateTable d)
  /\ currentPage (deleteRow i answer d) = currentPage d
  /\ List.length (rows (deleteRow i answer d)) = List.length (rows d).
Proof.
  unfold deleteRow, paginateTable, updateUserCount, with_rows.
  cbn [rows currentPage pagination].
  rewrite show_slice_length, !at_row_length.
  split; [|repeat split].
  apply show_slice_display, at_row_length.
Qed.

End DocMore.
